(** * express-react-demo: the fetch-with-fallback loader of the React client
      and the Express data provider

    Sources embedded here:
    - the client component [App] (state hooks, [fetchWithTimeout], the mount
      effect with [fetchData], [fetchUserData], [fetchProducts], the tab
      effect, and the JSX it returns);
    - the server [src/server/index.js] (the three [/api] routes).

    The client is written in an asynchronous style.  An asynchronous function
    is embedded as a finite tree of synchronous calls and suspension points
    ([Async]); a session is a world holding the component state, the pending
    suspensions and the trace of calls, advanced by user and environment
    events ([step]). *)

From Stdlib Require Import String Ascii List ZArith Bool Lia DecimalString.
Import ListNotations.
Open Scope string_scope.
Open Scope Z_scope.
Open Scope list_scope.

(** ** JavaScript values

    The values a parsed JSON body can hold, plus [undefined].  Numbers are the
    integers (every number literal of the repository is one). Object members
    are kept in source order; a later duplicate key shadows an earlier one, as
    [JSON.parse] does. *)

#[local] Set Warnings "-register-all".
Inductive value : Type :=
| JUndefined
| JNull
| JBool (b : bool)
| JNum (z : Z)
| JStr (s : string)
| JArr (items : list value)
| JObj (members : list (string * value)).

(** ToBoolean: the test of [if (userData)]. *)
Definition truthy (v : value) : bool :=
  match v with
  | JUndefined | JNull => false
  | JBool b => b
  | JNum z => negb (z =? 0)
  | JStr s => negb (String.eqb s "")
  | JArr _ | JObj _ => true
  end.

(** Own-property lookup in a parsed object: the last member of that name. *)
Fixpoint own_member (name : string) (members : list (string * value)) : option value :=
  match members with
  | [] => None
  | (k, v) :: rest =>
      match own_member name rest with
      | Some v' => Some v'
      | None => if String.eqb k name then Some v else None
      end
  end.

(** The exceptions the client code can meet. *)
Inductive Error : Type :=
| AbortError        (* the abort controller fired: the request timed out *)
| NetworkError      (* fetch rejected: connection failure *)
| SyntaxError       (* response.json(): the body is not JSON *)
| TypeError.        (* property access on null or undefined *)

(** The result of evaluating an expression: a value, a thrown exception, or an
    evaluation this development does not model (the numeric coercion of
    strings, arrays and objects in a relational comparison). *)
Inductive Completion (A : Type) : Type :=
| Normal (a : A)
| Thrown (e : Error)
| Unmodelled.
Arguments Normal {A} a.
Arguments Thrown {A} e.
Arguments Unmodelled {A}.

(** [v.message]: throws on [null] and [undefined], reads the own member of an
    object, and is [undefined] on every other JSON value. *)
Definition prop_message (v : value) : Completion value :=
  match v with
  | JUndefined | JNull => Thrown TypeError
  | JObj members =>
      match own_member "message" members with
      | Some m => Normal m
      | None => Normal JUndefined
      end
  | _ => Normal JUndefined
  end.

(** [v.length]: the built-in length of strings and arrays, the own member of
    an object, [undefined] on numbers and booleans.  A string is read as its
    sequence of code units, one per character of the model. *)
Definition prop_length (v : value) : Completion value :=
  match v with
  | JUndefined | JNull => Thrown TypeError
  | JStr s => Normal (JNum (Z.of_nat (String.length s)))
  | JArr items => Normal (JNum (Z.of_nat (List.length items)))
  | JObj members =>
      match own_member "length" members with
      | Some m => Normal m
      | None => Normal JUndefined
      end
  | JBool _ | JNum _ => Normal JUndefined
  end.

(** [v > 0] for a primitive operand: [undefined] converts to NaN, [null] to 0,
    [true] to 1. *)
Definition gt_zero (v : value) : Completion bool :=
  match v with
  | JUndefined => Normal false
  | JNull => Normal false
  | JBool b => Normal b
  | JNum z => Normal (0 <? z)
  | JStr _ | JArr _ | JObj _ => Unmodelled
  end.

(** [v.length > 0]: the test of [fetchProducts]. *)
Definition length_gt_zero (v : value) : Completion bool :=
  match prop_length v with
  | Normal len => gt_zero len
  | Thrown e => Thrown e
  | Unmodelled => Unmodelled
  end.

(** [String.prototype.includes]. *)
Fixpoint includes (s needle : string) : bool :=
  if String.prefix needle s then true
  else match s with
       | EmptyString => false
       | String _ rest => includes rest needle
       end.

(** ** The data types of the client *)

Record UserData : Type := mkUserData {
  user_id : Z;
  user_name : string;
  email : string;
  role : string;
  skills : list string;
  experience : Z;
  location : string;
  department : string;
  projects : Z
}.

Record Product : Type := mkProduct {
  id : Z;
  name : string;
  price : Z;
  category : string;
  inStock : bool
}.

(** The object literal of a user, members in the order the sources list them. *)
Definition user_value (u : UserData) : value :=
  JObj [ ("id", JNum (user_id u));
         ("name", JStr (user_name u));
         ("email", JStr (email u));
         ("role", JStr (role u));
         ("skills", JArr (map JStr (skills u)));
         ("experience", JNum (experience u));
         ("location", JStr (location u));
         ("department", JStr (department u));
         ("projects", JNum (projects u)) ].

Definition product_value (p : Product) : value :=
  JObj [ ("id", JNum (id p));
         ("name", JStr (name p));
         ("price", JNum (price p));
         ("category", JStr (category p));
         ("inStock", JBool (inStock p)) ].

Definition products_value (ps : list Product) : value :=
  JArr (map product_value ps).

(** ** FALLBACK_DATA *)
Module FALLBACK_DATA.

Definition message : string :=
  "API not available in production. This is fallback data.".

Definition user : UserData :=
  mkUserData 1 "John Doe" "john@example.com" "Developer"
    ["JavaScript"; "React"; "Node.js"; "Express"] 5
    "San Francisco" "Engineering" 12.

Definition products : list Product :=
  [ mkProduct 1 "Laptop Pro" 1299 "Electronics" true;
    mkProduct 2 "Wireless Headphones" 199 "Audio" true;
    mkProduct 3 "Smart Watch" 349 "Wearables" false;
    mkProduct 4 "Desk Chair" 249 "Furniture" true;
    mkProduct 5 "Coffee Maker" 89 "Kitchen" true;
    mkProduct 6 "Fitness Tracker" 129 "Wearables" true ].

End FALLBACK_DATA.

(** ** The component state: the nine [useState] hooks of [App] *)

Inductive Tab : Type := tab_welcome | tab_user | tab_products.

Definition Tab_eqb (a b : Tab) : bool :=
  match a, b with
  | tab_welcome, tab_welcome | tab_user, tab_user | tab_products, tab_products => true
  | _, _ => false
  end.

Record AppState : Type := mkAppState {
  message : value;
  loading : bool;
  activeTab : Tab;
  userData : value;
  products : value;
  userLoading : bool;
  productsLoading : bool;
  isApiAvailable : bool;
  isNetlify : bool
}.

(** The initial values passed to [useState]. *)
Definition initialState : AppState :=
  {| message := JStr "";
     loading := true;
     activeTab := tab_welcome;
     userData := JNull;
     products := JArr [];
     userLoading := false;
     productsLoading := false;
     isApiAvailable := true;
     isNetlify := false |}.

(** ** Calls

    The synchronous calls an asynchronous function of the client makes: the
    state setters and [console.error]. *)
Inductive Call : Type :=
| setMessage (v : value)
| setLoading (b : bool)
| setActiveTab (t : Tab)
| setUserData (v : value)
| setProducts (v : value)
| setUserLoading (b : bool)
| setProductsLoading (b : bool)
| setIsApiAvailable (b : bool)
| setIsNetlify (b : bool)
| console_error (label : string) (e : Error).

(** A setter replaces its own hook and leaves the others. *)
Definition apply_call (c : Call) (s : AppState) : AppState :=
  match c with
  | setMessage v =>
      mkAppState v (loading s) (activeTab s) (userData s) (products s)
        (userLoading s) (productsLoading s) (isApiAvailable s) (isNetlify s)
  | setLoading b =>
      mkAppState (message s) b (activeTab s) (userData s) (products s)
        (userLoading s) (productsLoading s) (isApiAvailable s) (isNetlify s)
  | setActiveTab t =>
      mkAppState (message s) (loading s) t (userData s) (products s)
        (userLoading s) (productsLoading s) (isApiAvailable s) (isNetlify s)
  | setUserData v =>
      mkAppState (message s) (loading s) (activeTab s) v (products s)
        (userLoading s) (productsLoading s) (isApiAvailable s) (isNetlify s)
  | setProducts v =>
      mkAppState (message s) (loading s) (activeTab s) (userData s) v
        (userLoading s) (productsLoading s) (isApiAvailable s) (isNetlify s)
  | setUserLoading b =>
      mkAppState (message s) (loading s) (activeTab s) (userData s) (products s)
        b (productsLoading s) (isApiAvailable s) (isNetlify s)
  | setProductsLoading b =>
      mkAppState (message s) (loading s) (activeTab s) (userData s) (products s)
        (userLoading s) b (isApiAvailable s) (isNetlify s)
  | setIsApiAvailable b =>
      mkAppState (message s) (loading s) (activeTab s) (userData s) (products s)
        (userLoading s) (productsLoading s) b (isNetlify s)
  | setIsNetlify b =>
      mkAppState (message s) (loading s) (activeTab s) (userData s) (products s)
        (userLoading s) (productsLoading s) (isApiAvailable s) b
  | console_error _ _ => s
  end.

(** ** Responses *)

Inductive Body : Type :=
| BodyJson (v : value)     (* the body parses as JSON, to [v] *)
| BodyInvalid.             (* it does not *)

Record Response : Type := mkResponse {
  status : Z;
  body : Body
}.

(** How a request made by [fetchWithTimeout] settles: the response arrives
    before the abort timer fires, the connection fails before it fires, or the
    timer fires first. *)
Inductive FetchOutcome : Type :=
| Responded (r : Response)
| ConnectionFailed
| TimedOut.

(** ** Asynchronous functions

    A finite tree: a result, a thrown exception, a synchronous call followed by
    the rest, or a suspension ([await]) with the continuation that runs when
    the awaited promise settles. *)
Inductive Async (A : Type) : Type :=
| Ret (a : A)
| Throw (e : Error)
| Outside                   (* an unmodelled evaluation was reached *)
| Do (c : Call) (k : Async A)
| AwaitFetch (url : string) (timeout : Z) (k : FetchOutcome -> Async A)
| AwaitDelay (ms : Z) (k : Async A).
Arguments Ret {A} a.
Arguments Throw {A} e.
Arguments Outside {A}.
Arguments Do {A} c k.
Arguments AwaitFetch {A} url timeout k.
Arguments AwaitDelay {A} ms k.

Fixpoint bind {A B : Type} (p : Async A) (f : A -> Async B) : Async B :=
  match p with
  | Ret a => f a
  | Throw e => Throw e
  | Outside => Outside
  | Do c k => Do c (bind k f)
  | AwaitFetch url timeout k => AwaitFetch url timeout (fun o => bind (k o) f)
  | AwaitDelay ms k => AwaitDelay ms (bind k f)
  end.

(** [try { p } catch (error) { handler error }]. *)
Fixpoint try_catch {A : Type} (p : Async A) (handler : Error -> Async A) : Async A :=
  match p with
  | Ret a => Ret a
  | Throw e => handler e
  | Outside => Outside
  | Do c k => Do c (try_catch k handler)
  | AwaitFetch url timeout k => AwaitFetch url timeout (fun o => try_catch (k o) handler)
  | AwaitDelay ms k => AwaitDelay ms (try_catch k handler)
  end.

(** [try { p } finally { cleanup }]: the cleanup runs on both exits, and the
    result or the exception of [p] is kept. *)
Fixpoint try_finally {A : Type} (p : Async A) (cleanup : Async unit) : Async A :=
  match p with
  | Ret a => bind cleanup (fun _ => Ret a)
  | Throw e => bind cleanup (fun _ => Throw e)
  | Outside => Outside
  | Do c k => Do c (try_finally k cleanup)
  | AwaitFetch url timeout k => AwaitFetch url timeout (fun o => try_finally (k o) cleanup)
  | AwaitDelay ms k => AwaitDelay ms (try_finally k cleanup)
  end.

Definition try_catch_finally {A : Type} (p : Async A) (handler : Error -> Async A)
    (cleanup : Async unit) : Async A :=
  try_finally (try_catch p handler) cleanup.

Definition call (c : Call) : Async unit := Do c (Ret tt).

Definition eval {A : Type} (c : Completion A) : Async A :=
  match c with
  | Normal a => Ret a
  | Thrown e => Throw e
  | Unmodelled => Outside
  end.

Declare Scope async_scope.
Delimit Scope async_scope with async.
Notation "x <- p ;; q" := (bind p (fun x => q))
  (at level 61, p at next level, right associativity) : async_scope.
Notation "p ;; q" := (bind p (fun _ => q))
  (at level 61, right associativity) : async_scope.
Open Scope async_scope.

(** ** The client functions *)

(** [fetch(url, { signal })] with the abort timer of [fetchWithTimeout] armed
    for [timeout] ms: the promise resolves with the response, or rejects. *)
Definition fetch (url : string) (timeout : Z) : Async Response :=
  AwaitFetch url timeout (fun o =>
    match o with
    | Responded r => Ret r
    | ConnectionFailed => Throw NetworkError
    | TimedOut => Throw AbortError
    end).

(** [fetchWithTimeout]: the timer is cleared on both exits, the response is
    returned and an exception is thrown again. *)
Definition fetchWithTimeout (url : string) (timeout : Z) : Async Response :=
  try_catch (response <- fetch url timeout ;; Ret response)
            (fun error => Throw error).

(** [response.json()]. The body comes with the response; no state is read or
    written between the two awaits of a loader, so they are one suspension. *)
Definition json (response : Response) : Async value :=
  match body response with
  | BodyJson v => Ret v
  | BodyInvalid => Throw SyntaxError
  end.

(** [fetchData], the probe of the mount effect. *)
Definition fetchData : Async unit :=
  try_catch_finally
    (response <- fetchWithTimeout "/api/hello" 3000 ;;
     data <- json response ;;
     m <- eval (prop_message data) ;;
     call (setMessage m) ;;
     call (setIsApiAvailable true))
    (fun error =>
       call (console_error "Error fetching data:" error) ;;
       call (setMessage (JStr FALLBACK_DATA.message)) ;;
       call (setIsApiAvailable false))
    (call (setLoading false)).

(** [window.location.hostname.includes('netlify.app') || ...]. *)
Definition static_host (hostname : string) : bool :=
  includes hostname "netlify.app" || includes hostname "staticblitz.com".

(** The mount effect ([useEffect(..., [])]). *)
Definition mount_effect (hostname : string) : Async unit :=
  if static_host hostname then
    call (setIsNetlify true) ;;
    call (setIsApiAvailable false) ;;
    call (setMessage (JStr FALLBACK_DATA.message)) ;;
    call (setLoading false)
  else fetchData.

(** [fetchUserData], reading [userData] and [isApiAvailable] of the render
    [r] whose effect calls it. *)
Definition fetchUserData (r : AppState) : Async unit :=
  if truthy (userData r) then Ret tt
  else
    call (setUserLoading true) ;;
    try_catch_finally
      (if negb (isApiAvailable r) then
         AwaitDelay 1000 (Ret tt) ;;
         call (setUserData (user_value FALLBACK_DATA.user))
       else
         response <- fetchWithTimeout "/api/user" 3000 ;;
         data <- json response ;;
         call (setUserData data))
      (fun error =>
         call (console_error "Error fetching user data:" error) ;;
         call (setUserData (user_value FALLBACK_DATA.user)) ;;
         call (setIsApiAvailable false))
      (call (setUserLoading false)).

(** [fetchProducts]. *)
Definition fetchProducts (r : AppState) : Async unit :=
  cached <- eval (length_gt_zero (products r)) ;;
  if cached then Ret tt
  else
    call (setProductsLoading true) ;;
    try_catch_finally
      (if negb (isApiAvailable r) then
         AwaitDelay 1000 (Ret tt) ;;
         call (setProducts (products_value FALLBACK_DATA.products))
       else
         response <- fetchWithTimeout "/api/products" 3000 ;;
         data <- json response ;;
         call (setProducts data))
      (fun error =>
         call (console_error "Error fetching products:" error) ;;
         call (setProducts (products_value FALLBACK_DATA.products)) ;;
         call (setIsApiAvailable false))
      (call (setProductsLoading false)).

(** The tab effect ([useEffect(..., [activeTab])]). *)
Definition tab_effect (r : AppState) : Async unit :=
  match activeTab r with
  | tab_user => fetchUserData r
  | tab_products => fetchProducts r
  | tab_welcome => Ret tt
  end.

(** ** Sessions

    A world is the component state, the suspended loaders, and the trace of
    what the client has done so far, oldest first. *)

(** The three resources; a suspension is labelled with the resource whose
    loader is suspended. *)
Inductive Resource : Type := Greeting | Profile | Catalog.

Inductive Task : Type :=
| TFetch (url : string) (timeout : Z) (k : FetchOutcome -> Async unit)
| TDelay (ms : Z) (k : Async unit).

Inductive Effect : Type :=
| Called (c : Call)                          (* a setter or console.error *)
| Requested (url : string) (timeout : Z)     (* a network request was sent *)
| TimerStarted (ms : Z)                      (* setTimeout(resolve, ms) *)
| Unhandled (e : Error).                     (* an async function rejected *)

Record World : Type := mkWorld {
  st : AppState;
  pending : list (nat * (Resource * Task));
  next_id : nat;
  trace : list Effect
}.

Definition suspend (owner : Resource) (t : Task) (e : Effect) (w : World) : World :=
  {| st := st w;
     pending := pending w ++ [(next_id w, (owner, t))];
     next_id := S (next_id w);
     trace := trace w ++ [e] |}.

Definition perform (c : Call) (w : World) : World :=
  {| st := apply_call c (st w);
     pending := pending w;
     next_id := next_id w;
     trace := trace w ++ [Called c] |}.

Definition reject (e : Error) (w : World) : World :=
  {| st := st w;
     pending := pending w;
     next_id := next_id w;
     trace := trace w ++ [Unhandled e] |}.

(** Run an asynchronous function up to its next suspension. [None]: the run
    left the model. *)
Fixpoint exec (owner : Resource) (p : Async unit) (w : World) : option World :=
  match p with
  | Ret _ => Some w
  | Throw e => Some (reject e w)
  | Outside => None
  | Do c k => exec owner k (perform c w)
  | AwaitFetch url timeout k =>
      Some (suspend owner (TFetch url timeout k) (Requested url timeout) w)
  | AwaitDelay ms k =>
      Some (suspend owner (TDelay ms k) (TimerStarted ms) w)
  end.

Fixpoint take_task (n : nat) (l : list (nat * (Resource * Task)))
    : option ((Resource * Task) * list (nat * (Resource * Task))) :=
  match l with
  | [] => None
  | (m, t) :: rest =>
      if Nat.eqb m n then Some (t, rest)
      else match take_task n rest with
           | Some (t', rest') => Some (t', (m, t) :: rest')
           | None => None
           end
  end.

Definition tab_resource (t : Tab) : Resource :=
  match t with
  | tab_products => Catalog
  | _ => Profile
  end.

(** What happens to a mounted component: the user clicks a tab button, a
    request settles, or a delay timer fires. *)
Inductive Event : Type :=
| Click (t : Tab)
| Settle (n : nat) (o : FetchOutcome)
| TimerFired (n : nat).

Definition with_pending (l : list (nat * (Resource * Task))) (w : World) : World :=
  {| st := st w; pending := l; next_id := next_id w; trace := trace w |}.

(** One event. A click on the active tab changes no state, so nothing
    renders and no effect runs; a click on another tab sets [activeTab] and
    the tab effect runs with the state of that render. [None]: the event
    names no pending suspension of its kind, or the run left the model. *)
Definition step (w : World) (e : Event) : option World :=
  match e with
  | Click t =>
      if Tab_eqb t (activeTab (st w)) then Some w
      else
        let w' := perform (setActiveTab t) w in
        exec (tab_resource t) (tab_effect (st w')) w'
  | Settle n o =>
      match take_task n (pending w) with
      | Some ((owner, TFetch _ _ k), rest) => exec owner (k o) (with_pending rest w)
      | _ => None
      end
  | TimerFired n =>
      match take_task n (pending w) with
      | Some ((owner, TDelay _ k), rest) => exec owner k (with_pending rest w)
      | _ => None
      end
  end.

Fixpoint run (w : World) (es : list Event) : option World :=
  match es with
  | [] => Some w
  | e :: rest =>
      match step w e with
      | Some w' => run w' rest
      | None => None
      end
  end.

Definition emptyWorld : World :=
  {| st := initialState; pending := []; next_id := 0; trace := [] |}.

(** Mounting: the first render has the initial state; the mount effect runs,
    then the tab effect (which does nothing on the welcome tab). *)
Definition mount (hostname : string) : option World :=
  match exec Greeting (mount_effect hostname) emptyWorld with
  | Some w => exec Profile (tab_effect initialState) w
  | None => None
  end.

(** A session: a mount followed by events. *)
Definition session (hostname : string) (es : list Event) : option World :=
  match mount hostname with
  | Some w => run w es
  | None => None
  end.

(** ** The data provider ([src/server/index.js]) *)
Module Server.

(** What a route handler does: wait, then send a JSON payload. *)
Inductive Reply : Type :=
| Wait (ms : Z) (k : Reply)
| SendJson (payload : value).

(** [await simulateDelay(ms); rest]. *)
Definition simulateDelay (ms : Z) (rest : Reply) : Reply := Wait ms rest.

(** An incoming request, as far as a handler could read it. *)
Record Request : Type := mkRequest {
  query : string;
  headers : list (string * string);
  payload : string
}.

Definition hello (req : Request) : Reply :=
  simulateDelay 1000
    (SendJson (JObj [("message", JStr "Hello from Express server!")])).

Definition user (req : Request) : Reply :=
  simulateDelay 2000
    (SendJson (user_value
       (mkUserData 1 "John Doe" "john@example.com" "Developer"
          ["JavaScript"; "React"; "Node.js"; "Express"] 5
          "San Francisco" "Engineering" 12))).

Definition products (req : Request) : Reply :=
  simulateDelay 3000
    (SendJson (products_value
       [ mkProduct 1 "Laptop Pro" 1299 "Electronics" true;
         mkProduct 2 "Wireless Headphones" 199 "Audio" true;
         mkProduct 3 "Smart Watch" 349 "Wearables" false;
         mkProduct 4 "Desk Chair" 249 "Furniture" true;
         mkProduct 5 "Coffee Maker" 89 "Kitchen" true;
         mkProduct 6 "Fitness Tracker" 129 "Wearables" true ])).











(** The total delay before the payload is sent, and the payload. *)
Fixpoint delay_of (r : Reply) : Z :=
  match r with
  | Wait ms k => ms + delay_of k
  | SendJson _ => 0
  end.

Fixpoint payload_of (r : Reply) : value :=
  match r with
  | Wait _ k => payload_of k
  | SendJson v => v
  end.

End Server.

(** ** Vocabulary of the specification, read off the component state *)

(** The URL a resource is fetched from. *)
Definition url_of (k : Resource) : string :=
  match k with
  | Greeting => "/api/hello"
  | Profile => "/api/user"
  | Catalog => "/api/products"
  end.

(** The fallback value of a resource. *)
Definition fallback_of (k : Resource) : value :=
  match k with
  | Greeting => JStr FALLBACK_DATA.message
  | Profile => user_value FALLBACK_DATA.user
  | Catalog => products_value FALLBACK_DATA.products
  end.

(** The loaded value of a resource and its loading flag. *)
Definition loaded (k : Resource) (s : AppState) : value :=
  match k with
  | Greeting => message s
  | Profile => userData s
  | Catalog => products s
  end.

Definition loading_flag (k : Resource) (s : AppState) : bool :=
  match k with
  | Greeting => loading s
  | Profile => userLoading s
  | Catalog => productsLoading s
  end.

Definition set_loaded (k : Resource) (v : value) : Call :=
  match k with
  | Greeting => setMessage v
  | Profile => setUserData v
  | Catalog => setProducts v
  end.

Definition set_loading_flag (k : Resource) (b : bool) : Call :=
  match k with
  | Greeting => setLoading b
  | Profile => setUserLoading b
  | Catalog => setProductsLoading b
  end.

(** The loader of a resource, called in render [r]. *)
Definition loader (k : Resource) (r : AppState) : Async unit :=
  match k with
  | Greeting => fetchData
  | Profile => fetchUserData r
  | Catalog => fetchProducts r
  end.

(** The network requests in a trace. *)
Definition is_request (e : Effect) : bool :=
  match e with
  | Requested _ _ => true
  | _ => false
  end.

Definition requests (t : list Effect) : list Effect := filter is_request t.

Definition requests_to (url : string) (t : list Effect) : nat :=
  List.length (filter (fun e => match e with
                                | Requested u _ => String.eqb u url
                                | _ => false
                                end) t).

(** The values written to the availability flag in a trace, oldest first. *)
Fixpoint availability_writes (t : list Effect) : list bool :=
  match t with
  | [] => []
  | Called (setIsApiAvailable b) :: rest => b :: availability_writes rest
  | _ :: rest => availability_writes rest
  end.

Definition unhandled (t : list Effect) : list Effect :=
  filter (fun e => match e with Unhandled _ => true | _ => false end) t.

(** ** Straight-line programs

    Once a loader's request or delay has settled, what remains of it is a
    sequence of calls.  [calls] builds such a program and [settled_calls]
    lists, per resource and outcome, the calls that remain; the lemmas below
    prove that the continuations of the loaders are exactly these. *)

Fixpoint calls (cs : list Call) : Async unit :=
  match cs with
  | [] => Ret tt
  | c :: rest => Do c (calls rest)
  end.

Definition performs (cs : list Call) (w : World) : World :=
  fold_left (fun w c => perform c w) cs w.

Definition apply_calls (cs : list Call) (s : AppState) : AppState :=
  fold_left (fun s c => apply_call c s) cs s.

(** The first argument of the loader's [console.error]. *)
Definition error_label (k : Resource) : string :=
  match k with
  | Greeting => "Error fetching data:"
  | Profile => "Error fetching user data:"
  | Catalog => "Error fetching products:"
  end.

(** The [catch] block followed by the [finally] block. *)
Definition failure_calls (k : Resource) (e : Error) : list Call :=
  [ console_error (error_label k) e;
    set_loaded k (fallback_of k);
    setIsApiAvailable false;
    set_loading_flag k false ].

(** The rest of the [try] block followed by the [finally] block. *)
Definition success_calls (k : Resource) (v : value) : list Call :=
  match k with
  | Greeting => [ setMessage v; setIsApiAvailable true; setLoading false ]
  | _ => [ set_loaded k v; set_loading_flag k false ]
  end.

(** What remains of a loader once its request has settled with [o]
    ([prop_message] is never [Unmodelled], see [prop_message_modelled]). *)
Definition settled_calls (k : Resource) (o : FetchOutcome) : list Call :=
  match o with
  | Responded r =>
      match body r with
      | BodyJson v =>
          match k with
          | Greeting =>
              match prop_message v with
              | Normal m => success_calls Greeting m
              | Thrown e => failure_calls Greeting e
              | Unmodelled => []
              end
          | _ => success_calls k v
          end
      | BodyInvalid => failure_calls k SyntaxError
      end
  | ConnectionFailed => failure_calls k NetworkError
  | TimedOut => failure_calls k AbortError
  end.

(** After the simulated delay: the fallback assignment and the [finally]. *)
Definition delayed_calls (k : Resource) : list Call :=
  [ set_loaded k (fallback_of k); set_loading_flag k false ].

(** The suspension a resource's loader can leave behind. *)
Definition task_of (k : Resource) (t : Task) : Prop :=
  match t with
  | TFetch url timeout c =>
      url = url_of k /\ timeout = 3000 /\ forall o, c o = calls (settled_calls k o)
  | TDelay ms c =>
      k <> Greeting /\ ms = 1000 /\ c = calls (delayed_calls k)
  end.

Definition tasks_ok (w : World) : Prop :=
  Forall (fun p => task_of (fst (snd p)) (snd (snd p))) (pending w).

(** The loader's own test for an already loaded resource. *)
Definition cache_test (k : Resource) (r : AppState) : Completion bool :=
  match k with
  | Greeting => Normal false
  | Profile => Normal (truthy (userData r))
  | Catalog => length_gt_zero (products r)
  end.

(** The suspension registered under number [n]. *)
Definition task_at (n : nat) (w : World) : option (Resource * Task) :=
  match take_task n (pending w) with
  | Some (t, _) => Some t
  | None => None
  end.

(** ** Auxiliary definitions for the statements

    The outcomes of a loader call and the transitions of a session in normal
    form, the invariants of sessions, and the concrete sessions the witnesses
    and counterexamples run. *)

(** The world right after the loader has raised its loading flag. *)
Definition started (k : Resource) (w : World) : World :=
  perform (set_loading_flag k true) w.

(** The outcomes of calling the profile or the catalog loader in render [r]
    and world [w]: return at once, throw in the cache test, start the
    simulated delay, or send the request. *)
Inductive call_result (k : Resource) (r : AppState) (w : World) : World -> Prop :=
| cr_cached :
    cache_test k r = Normal true ->
    call_result k r w w
| cr_threw e :
    cache_test k r = Thrown e ->
    call_result k r w (reject e w)
| cr_delay :
    cache_test k r = Normal false ->
    isApiAvailable r = false ->
    call_result k r w
      (suspend k (TDelay 1000 (calls (delayed_calls k))) (TimerStarted 1000) (started k w))
| cr_fetch c :
    cache_test k r = Normal false ->
    isApiAvailable r = true ->
    (forall o, c o = calls (settled_calls k o)) ->
    call_result k r w
      (suspend k (TFetch (url_of k) 3000 c) (Requested (url_of k) 3000) (started k w)).

(** The transitions of a session whose suspensions are those of the loaders. *)
Inductive transition (w : World) : Event -> World -> Prop :=
| tr_same t :
    activeTab (st w) = t ->
    transition w (Click t) w
| tr_welcome :
    activeTab (st w) <> tab_welcome ->
    transition w (Click tab_welcome) (perform (setActiveTab tab_welcome) w)
| tr_load t w' :
    t <> tab_welcome ->
    activeTab (st w) <> t ->
    call_result (tab_resource t) (st (perform (setActiveTab t) w))
      (perform (setActiveTab t) w) w' ->
    transition w (Click t) w'
| tr_settle n o k url ms c rest :
    take_task n (pending w) = Some ((k, TFetch url ms c), rest) ->
    url = url_of k -> ms = 3000 ->
    transition w (Settle n o) (performs (settled_calls k o) (with_pending rest w))
| tr_timer n k ms c rest :
    take_task n (pending w) = Some ((k, TDelay ms c), rest) ->
    k <> Greeting -> ms = 1000 ->
    transition w (TimerFired n) (performs (delayed_calls k) (with_pending rest w)).

(** The calls of the mount effect on a static host. *)
Definition static_mount_calls : list Call :=
  [ setIsNetlify true; setIsApiAvailable false;
    setMessage (JStr FALLBACK_DATA.message); setLoading false ].

(** The world a session ends in ([emptyWorld] if it left the model). *)
Definition world_of (o : option World) : World :=
  match o with
  | Some w => w
  | None => emptyWorld
  end.

(** The provider's answer to the probe. *)
Definition hello_answer (status : Z) : FetchOutcome :=
  Responded (mkResponse status
    (BodyJson (JObj [("message", JStr "Hello from Express server!")]))).

(** A local session in which the user opens the profile tab at once. *)
Definition profile_opened : option World :=
  session "localhost" [Click tab_user].

(** A pending suspension that waits for a timer, not for a response. *)
Definition is_delay (p : nat * (Resource * Task)) : Prop :=
  match snd (snd p) with
  | TDelay _ _ => True
  | TFetch _ _ _ => False
  end.

(** What holds throughout a session on a static host: the availability flag
    is false, the greeting is not loading, no request was sent and none is
    pending. *)
Definition degraded (w : World) : Prop :=
  isApiAvailable (st w) = false /\
  loading (st w) = false /\
  message (st w) = JStr FALLBACK_DATA.message /\
  requests (trace w) = [] /\
  Forall is_delay (pending w).

(** The catalog test of [fetchProducts] can be evaluated in the model. *)
Definition catalog_testable (w : World) : Prop :=
  exists b, cache_test Catalog (st w) = Normal b.

(** The value the success path stores: the body itself for the profile and
    the catalog, its [message] member for the greeting. *)
Definition stored_on_success (k : Resource) (v : value) : value :=
  match k with
  | Greeting =>
      match prop_message v with
      | Normal m => m
      | _ => JUndefined
      end
  | _ => v
  end.

(** The response of the counterexample to C10: status 200, body [null]. *)
Definition null_answer : FetchOutcome :=
  Responded (mkResponse 200 (BodyJson JNull)).

(** No suspension of the probe is pending. *)
Definition probe_settled (w : World) : Prop :=
  Forall (fun p => fst (snd p) <> Greeting) (pending w).

(** Since world [w1]: the flag is false, the probe is settled, and every
    write to the flag after [w1] wrote false. *)
Definition sticky (w1 w : World) : Prop :=
  isApiAvailable (st w) = false /\
  probe_settled w /\
  exists t, trace w = trace w1 ++ t /\
            Forall (fun b => b = false) (availability_writes t).

(** The session of the counterexample to C3: the profile request fails while
    the probe is still pending, then the probe is answered. *)
Definition late_probe : list Event :=
  [ Click tab_user; Settle 1 ConnectionFailed; Settle 0 (hello_answer 200) ].

(** A local session whose probe timed out, and what the user does next. *)
Definition probe_timed_out : option World :=
  session "localhost" [Settle 0 TimedOut].

(** The user opens the profile and the catalog, each delay ending in turn. *)
Definition browsing : list Event :=
  [ Click tab_user; TimerFired 1; Click tab_products; TimerFired 2 ].

(** The probe is the only request to /api/hello. *)
Definition probed_once (w : World) : Prop :=
  (requests_to "/api/hello" (trace w) <= 1)%nat.

(** A local session of the counterexample to C2: the probe is answered, the
    user opens the catalog, and the provider answers with an empty list. *)
Definition empty_catalog_loaded : list Event :=
  [ Settle 0 (hello_answer 200); Click tab_products;
    Settle 1 (Responded (mkResponse 200 (BodyJson (JArr [])))) ].

(** A static-host session in which the catalog has been loaded from the
    fallback. *)
Definition fallback_catalog_loaded : option World :=
  session "demo.netlify.app" [Click tab_products; TimerFired 0; Click tab_welcome].

(** The render of a degraded session in which no catalog is stored. *)
Definition degraded_render : AppState :=
  apply_calls [ setIsApiAvailable false; setLoading false ] initialState.

(** ** The view: the element tree [App] returns

    The JSX of [App] is an expression; its value is a tree of elements whose
    children are elements, literal text, and the values of embedded
    expressions. Evaluating it reads members of the stored values and can
    throw. *)

Inductive Attr : Type :=
| className (s : string)
| key (v : value)
| scope (s : string)
| onClick (t : Tab).        (* () => setActiveTab(t) *)

Inductive Node : Type :=
| Element (tag : string) (attrs : list Attr) (children : list Node)
| Text (s : string)         (* literal text between tags *)
| Expr (v : value)          (* the value of a {expression} child *)
| Items (l : list Node).    (* an array of elements as a child *)

Definition and_then {A B : Type} (c : Completion A) (f : A -> Completion B)
    : Completion B :=
  match c with
  | Normal a => f a
  | Thrown e => Thrown e
  | Unmodelled => Unmodelled
  end.

Declare Scope completion_scope.
Delimit Scope completion_scope with completion.
Notation "x <~ c ;; k" := (and_then c (fun x => k))
  (at level 61, c at next level, right associativity) : completion_scope.

(** [v.name] for a member name that no prototype defines: throws on [null]
    and [undefined], reads the own member of an object, and is [undefined] on
    every other value. *)
Definition get_member (name : string) (v : value) : Completion value :=
  match v with
  | JUndefined | JNull => Thrown TypeError
  | JObj members =>
      match own_member name members with
      | Some m => Normal m
      | None => Normal JUndefined
      end
  | _ => Normal JUndefined
  end.

(** The callback applied to each element with its index, in order; the first
    callback that does not return stops the evaluation. *)
Fixpoint map_from {A : Type} (index : nat) (f : value -> nat -> Completion A)
    (items : list value) : Completion (list A) :=
  match items with
  | [] => Normal []
  | item :: rest =>
      match f item index with
      | Normal a =>
          match map_from (S index) f rest with
          | Normal l => Normal (a :: l)
          | Thrown e => Thrown e
          | Unmodelled => Unmodelled
          end
      | Thrown e => Thrown e
      | Unmodelled => Unmodelled
      end
  end.

(** [v.map(f)]: only an array has a [map] to call. *)
Definition js_map {A : Type} (v : value) (f : value -> nat -> Completion A)
    : Completion (list A) :=
  match v with
  | JArr items => map_from 0 f items
  | _ => Thrown TypeError
  end.

(** [v.toFixed(2)]: only a number has a [toFixed] to call; an integer below
    10^21 in magnitude is printed in decimal with two zero decimals. *)
Definition toFixed2 (v : value) : Completion string :=
  match v with
  | JNum z =>
      if Z.abs z <? 10 ^ 21
      then Normal (String.append (NilZero.string_of_int (Z.to_int z)) ".00")
      else Unmodelled
  | _ => Thrown TypeError
  end.

Definition spinner (box circle : string) : Node :=
  Element "div" [className box] [Element "div" [className circle] []].

(** The warning shown when [!isApiAvailable]. *)
Definition banner (s : AppState) : Node :=
  if negb (isApiAvailable s) then
    Element "div" [className "bg-yellow-50 border-l-4 border-yellow-400 p-4"]
      [ Element "div" [className "flex"]
          [ Element "AlertTriangle" [className "h-5 w-5 text-yellow-600"] [];
            Element "div" [className "ml-3"]
              [ Element "p" [className "text-sm text-yellow-700"]
                  [ Element "strong" [] [Text "Note:"];
                    Text " ";
                    Expr (JStr
                      (if isNetlify s
                       then "This app is deployed on a static hosting platform, which doesn't support running the Express server. Showing simulated data instead."
                       else "The Express API is not available. Showing fallback data instead.")) ];
                if isNetlify s then
                  Element "p" [className "text-sm text-yellow-700 mt-1"]
                    [ Text "To see the real API in action, clone the repository and run the app locally with both the React frontend and Express backend." ]
                else Expr (JBool false) ] ] ]
  else Expr (JBool false).

Definition tab_button (s : AppState) (t : Tab) (icon label : string) : Node :=
  Element "button"
    [ className
        (String.append "px-4 py-3 font-medium text-sm flex items-center "
           (if Tab_eqb (activeTab s) t
            then "border-b-2 border-blue-500 text-blue-600"
            else "text-gray-500 hover:text-gray-700"));
      onClick t ]
    [ Element icon [className "h-4 w-4 mr-2"] []; Text label ].

Definition tabs (s : AppState) : Node :=
  Element "div" [className "flex border-b border-gray-200"]
    [ tab_button s tab_welcome "Server" "Welcome";
      tab_button s tab_user "User" "User Object";
      tab_button s tab_products "ShoppingBag" "Products Array" ].

Definition welcome_panel (s : AppState) : Node :=
  Element "div" []
    [ Element "div" [className "bg-gray-50 p-4 rounded-lg border border-gray-200 mb-6"]
        [ Element "h2" [className "text-lg font-semibold mb-2"] [Text "Server Response:"];
          if loading s
          then spinner "flex items-center justify-center h-10"
                       "animate-spin rounded-full h-6 w-6 border-b-2 border-blue-500"
          else Element "p" [className "text-gray-700"] [Expr (message s)] ];
      Element "div" [className "text-sm text-gray-600"]
        [ Element "p" [className "mb-2"]
            [Text "Your Express + React app is now set up with:"];
          Element "ul" [className "list-disc pl-5 space-y-1"]
            [ Element "li" [] [Text "React frontend with Tailwind CSS"];
              Element "li" [] [Text "Express backend API with multiple endpoints"];
              Element "li" [] [Text "API proxy configuration"];
              Element "li" [] [Text "Concurrent development servers"];
              if isNetlify s
              then Element "li" [] [Text "Fallback data for static hosting deployment"]
              else Expr (JBool false) ] ] ].

(** One cell of the profile grid: a heading and a paragraph. *)
Definition profile_field (label : string) (content : list Node) : Node :=
  Element "div" []
    [ Element "h3" [className "font-medium text-gray-700"] [Text label];
      Element "p" [className "text-gray-900"] content ].

Definition skill_badge (skill : value) (index : nat) : Completion Node :=
  Normal (Element "span"
            [ key (JNum (Z.of_nat index));
              className "px-2 py-1 bg-blue-100 text-blue-800 text-xs rounded" ]
            [Expr skill]).

Definition failed_paragraph (text : string) : Node :=
  Element "p" [className "text-gray-500"] [Text text].

Open Scope completion_scope.

(** The profile, once [userData] is truthy. *)
Definition profile_card (u : value) : Completion Node :=
  name <~ get_member "name" u ;;
  email <~ get_member "email" u ;;
  role <~ get_member "role" u ;;
  department <~ get_member "department" u ;;
  experience <~ get_member "experience" u ;;
  location <~ get_member "location" u ;;
  projects <~ get_member "projects" u ;;
  skills <~ get_member "skills" u ;;
  badges <~ js_map skills skill_badge ;;
  Normal
    (Element "div" [className "bg-gray-50 p-5 rounded-lg border border-gray-200"]
       [ Element "div" [className "grid grid-cols-1 md:grid-cols-2 gap-4"]
           [ profile_field "Name" [Expr name];
             profile_field "Email" [Expr email];
             profile_field "Role" [Expr role];
             profile_field "Department" [Expr department];
             profile_field "Experience" [Expr experience; Text " years"];
             profile_field "Location" [Expr location];
             profile_field "Projects" [Expr projects];
             Element "div" []
               [ Element "h3" [className "font-medium text-gray-700"] [Text "Skills"];
                 Element "div" [className "flex flex-wrap gap-2 mt-1"]
                   [Items badges] ] ] ]).

Definition user_panel (s : AppState) : Completion Node :=
  content <~ (if userLoading s
              then Normal (spinner "flex items-center justify-center h-40"
                             "animate-spin rounded-full h-8 w-8 border-b-2 border-blue-500")
              else if truthy (userData s)
              then profile_card (userData s)
              else Normal (failed_paragraph "Failed to load user data")) ;;
  Normal
    (Element "div" []
       [ Element "h2" [className "text-xl font-semibold mb-4"] [Text "User Object Data"];
         content ]).

Definition column_heading (label : string) : Node :=
  Element "th"
    [ scope "col";
      className "px-6 py-3 text-left text-xs font-medium text-gray-500 uppercase tracking-wider" ]
    [Text label].

Definition cell (content : Node) : Node :=
  Element "td" [className "px-6 py-4 whitespace-nowrap"] [content].

(** The callback of [products.map]. *)
Definition product_row (product : value) (index : nat) : Completion Node :=
  row_key <~ get_member "id" product ;;
  row_name <~ get_member "name" product ;;
  row_category <~ get_member "category" product ;;
  row_price <~ get_member "price" product ;;
  fixed <~ toFixed2 row_price ;;
  in_stock <~ get_member "inStock" product ;;
  Normal
    (Element "tr" [key row_key]
       [ cell (Element "div" [className "text-sm font-medium text-gray-900"]
                 [Expr row_name]);
         cell (Element "div" [className "text-sm text-gray-500"] [Expr row_category]);
         cell (Element "div" [className "text-sm text-gray-900"]
                 [Text "$"; Expr (JStr fixed)]);
         cell (Element "span"
                 [ className
                     (String.append
                        "px-2 py-1 inline-flex text-xs leading-5 font-semibold rounded-full "
                        (if truthy in_stock
                         then "bg-green-100 text-green-800"
                         else "bg-red-100 text-red-800")) ]
                 [ Expr (JStr (if truthy in_stock then "In Stock" else "Out of Stock")) ]) ]).

Definition products_table (catalog : value) : Completion Node :=
  rows <~ js_map catalog product_row ;;
  Normal
    (Element "div" [className "overflow-x-auto"]
       [ Element "table" [className "min-w-full divide-y divide-gray-200"]
           [ Element "thead" [className "bg-gray-50"]
               [ Element "tr" []
                   [ column_heading "Name"; column_heading "Category";
                     column_heading "Price"; column_heading "Status" ] ];
             Element "tbody" [className "bg-white divide-y divide-gray-200"]
               [Items rows] ] ]).

Definition products_panel (s : AppState) : Completion Node :=
  content <~ (if productsLoading s
              then Normal (spinner "flex items-center justify-center h-40"
                             "animate-spin rounded-full h-8 w-8 border-b-2 border-blue-500")
              else
                nonempty <~ length_gt_zero (products s) ;;
                if nonempty
                then products_table (products s)
                else Normal (failed_paragraph "Failed to load products data")) ;;
  Normal
    (Element "div" []
       [ Element "h2" [className "text-xl font-semibold mb-4"]
           [Text "Products Array Data"];
         content ]).

(** [activeTab === t && panel]: the panel is evaluated on its own tab only. *)
Definition on_tab (s : AppState) (t : Tab) (panel : Completion Node)
    : Completion Node :=
  if Tab_eqb (activeTab s) t then panel else Normal (Expr (JBool false)).

(** The tree [App] returns in state [s]. *)
Definition render (s : AppState) : Completion Node :=
  w <~ on_tab s tab_welcome (Normal (welcome_panel s)) ;;
  u <~ on_tab s tab_user (user_panel s) ;;
  p <~ on_tab s tab_products (products_panel s) ;;
  Normal
    (Element "div"
       [className "min-h-screen bg-gray-100 flex items-center justify-center p-4"]
       [ Element "div" [className "bg-white rounded-lg shadow-md max-w-4xl w-full"]
           [ Element "div"
               [className "flex items-center justify-center p-6 border-b border-gray-200"]
               [ Element "Server" [className "h-8 w-8 text-blue-600 mr-3"] [];
                 Element "h1" [className "text-2xl font-bold text-gray-800"]
                   [Text "Express + React App"] ];
             banner s;
             tabs s;
             Element "div" [className "p-6"] [w; u; p] ] ]).

Close Scope completion_scope.

(** ** Further definitions: what is pending, what was traced *)

Definition Resource_eqb (a b : Resource) : bool :=
  match a, b with
  | Greeting, Greeting | Profile, Profile | Catalog, Catalog => true
  | _, _ => false
  end.

(** The suspensions of the loader of resource [k] among [l]. *)
Definition owned_by (k : Resource) (l : list (nat * (Resource * Task)))
    : list (nat * (Resource * Task)) :=
  filter (fun p => Resource_eqb (fst (snd p)) k) l.

(** How many loads of [k] are pending, and whether one is. *)
Definition pending_loads (k : Resource) (w : World) : nat :=
  List.length (owned_by k (pending w)).

Definition pending_for (k : Resource) (w : World) : bool :=
  negb (Nat.eqb (pending_loads k w) 0).

(** The [console.error] calls of a trace. *)
Definition errors_logged (t : list Effect) : list Effect :=
  filter (fun e => match e with
                   | Called (console_error _ _) => true
                   | _ => false
                   end) t.

(** A traced request or timer is one the loaders start: a request to the URL
    of a resource bounded by 3000 ms, a timer of 1000 ms. *)
Definition started_by_loader (e : Effect) : Prop :=
  match e with
  | Requested url timeout => timeout = 3000 /\ exists k, url = url_of k
  | TimerStarted ms => ms = 1000
  | _ => True
  end.

(** The route of the provider that serves resource [k]. *)
Definition provider_reply (k : Resource) (req : Server.Request) : Server.Reply :=
  match k with
  | Greeting => Server.hello req
  | Profile => Server.user req
  | Catalog => Server.products req
  end.

(** The provider's reply as the client receives it. *)
Definition provider_answer (k : Resource) (req : Server.Request) (status : Z)
    : FetchOutcome :=
  Responded (mkResponse status (BodyJson (Server.payload_of (provider_reply k req)))).

(** Since world [w1]: the flag stayed false, the probe stayed settled, and no
    request was added to the trace. *)
Definition quiet (w1 w : World) : Prop :=
  sticky w1 w /\ requests (trace w) = requests (trace w1).

(** A loading flag is raised only while a load of its resource is pending,
    and the greeting's flag is raised exactly while the probe is pending. *)
Definition spinners_justified (w : World) : Prop :=
  pending_loads Greeting w = (if loading (st w) then 1 else 0)%nat /\
  (userLoading (st w) = true -> pending_for Profile w = true) /\
  (productsLoading (st w) = true -> pending_for Catalog w = true).

(** A degraded session of a host that is not a static one has logged an
    error. *)
Definition degradation_logged (hostname : string) (w : World) : Prop :=
  isNetlify (st w) = static_host hostname /\
  (isApiAvailable (st w) = false ->
   static_host hostname = true \/ errors_logged (trace w) <> []).

(** The stored data have the shapes the component declares: no profile yet or
    a [UserData] object, and a list of [Product] objects whose prices print
    in decimal. *)
Definition typed_data (s : AppState) : Prop :=
  (userData s = JNull \/ exists u, userData s = user_value u) /\
  exists ps, products s = products_value ps /\
             Forall (fun p => Z.abs (price p) < 10 ^ 21) ps.

(** A session against this provider: every answer to a pending request is the
    payload of the provider's route for that resource. *)
Fixpoint served_by_provider (w : World) (es : list Event) : Prop :=
  match es with
  | [] => True
  | e :: rest =>
      match e with
      | Settle n (Responded r) =>
          exists k t req,
            task_at n w = Some (k, t) /\
            body r = BodyJson (Server.payload_of (provider_reply k req))
      | _ => True
      end /\
      match step w e with
      | Some w' => served_by_provider w' rest
      | None => True
      end
  end.

(** A local session in which the probe and the profile request are answered
    by the provider. *)
Definition served_session : list Event :=
  [ Settle 0 (provider_answer Greeting (Server.mkRequest "" [] "") 200);
    Click tab_user;
    Settle 1 (provider_answer Profile (Server.mkRequest "" [] "") 200) ].

(** Since world [w1] resource [k] is at rest: its stored value is the one of
    [w1], none of its loads is pending, and no request for it was added. *)
Definition at_rest (k : Resource) (w1 w : World) : Prop :=
  loaded k (st w) = loaded k (st w1) /\
  pending_loads k w = 0%nat /\
  requests_to (url_of k) (trace w) = requests_to (url_of k) (trace w1).

(** Splits the conjunctions of a frame statement and settles each resource. *)
Ltac frame_case :=
  repeat (split; [reflexivity|]);
  let k' := fresh "k'" in
  let Hk := fresh "Hk" in
  intros k' Hk; destruct k'; try congruence; split; reflexivity.



(** ** Lemmas on the execution of programs *)

Lemma performs_st cs w : st (performs cs w) = apply_calls cs (st w).
Proof.
  revert w; induction cs as [|c cs IH]; intros w; simpl; [reflexivity|].
  unfold performs, apply_calls in *. simpl. rewrite IH. reflexivity.
Qed.

Lemma performs_pending cs w : pending (performs cs w) = pending w.
Proof.
  revert w; induction cs as [|c cs IH]; intros w; simpl; [reflexivity|].
  unfold performs in *. simpl. rewrite IH. reflexivity.
Qed.

Lemma performs_next_id cs w : next_id (performs cs w) = next_id w.
Proof.
  revert w; induction cs as [|c cs IH]; intros w; simpl; [reflexivity|].
  unfold performs in *. simpl. rewrite IH. reflexivity.
Qed.

Lemma performs_trace cs w : trace (performs cs w) = trace w ++ map Called cs.
Proof.
  revert w; induction cs as [|c cs IH]; intros w; simpl.
  - now rewrite app_nil_r.
  - unfold performs in *. simpl. rewrite IH. simpl.
    now rewrite <- app_assoc.
Qed.

Lemma exec_calls owner cs w : exec owner (calls cs) w = Some (performs cs w).
Proof.
  revert w; induction cs as [|c cs IH]; intros w; simpl; [reflexivity|].
  now rewrite IH.
Qed.

(** The continuation of the probe. *)
Lemma fetchData_shape :
  exists k, fetchData = AwaitFetch "/api/hello" 3000 k
            /\ forall o, k o = calls (settled_calls Greeting o).
Proof.
  eexists. split; [reflexivity|].
  intros [[s [v|]]| |]; try reflexivity.
  destruct v as [ | | | | | |ms]; try reflexivity.
  cbn. destruct (own_member "message" ms); reflexivity.
Qed.

(** The four ways a call of the profile loader goes. *)
Lemma fetchUserData_shape r :
  fetchUserData r =
    if truthy (userData r) then Ret tt
    else Do (setUserLoading true)
           (if negb (isApiAvailable r)
            then AwaitDelay 1000 (calls (delayed_calls Profile))
            else try_catch_finally
                   (response <- fetchWithTimeout "/api/user" 3000 ;;
                    data <- json response ;;
                    call (setUserData data))
                   (fun error => calls [ console_error "Error fetching user data:" error;
                                         setUserData (user_value FALLBACK_DATA.user);
                                         setIsApiAvailable false ])
                   (call (setUserLoading false))).
Proof.
  unfold fetchUserData.
  destruct (truthy (userData r)); [reflexivity|].
  destruct (isApiAvailable r); reflexivity.
Qed.

Lemma user_fetch_shape :
  exists k,
    try_catch_finally
      (response <- fetchWithTimeout "/api/user" 3000 ;;
       data <- json response ;;
       call (setUserData data))
      (fun error => calls [ console_error "Error fetching user data:" error;
                            setUserData (user_value FALLBACK_DATA.user);
                            setIsApiAvailable false ])
      (call (setUserLoading false))
    = AwaitFetch "/api/user" 3000 k
    /\ forall o, k o = calls (settled_calls Profile o).
Proof.
  eexists. split; [reflexivity|].
  intros [[s [v|]]| |]; reflexivity.
Qed.

Lemma products_fetch_shape :
  exists k,
    try_catch_finally
      (response <- fetchWithTimeout "/api/products" 3000 ;;
       data <- json response ;;
       call (setProducts data))
      (fun error =>
         call (console_error "Error fetching products:" error) ;;
         call (setProducts (products_value FALLBACK_DATA.products)) ;;
         call (setIsApiAvailable false))
      (call (setProductsLoading false))
    = AwaitFetch "/api/products" 3000 k
    /\ forall o, k o = calls (settled_calls Catalog o).
Proof.
  eexists. split; [reflexivity|].
  intros [[s [v|]]| |]; reflexivity.
Qed.

(** ** One call of a loader, one event of a session *)

Lemma exec_loader k r w w' :
  k <> Greeting ->
  exec k (loader k r) w = Some w' ->
  call_result k r w w'.
Proof.
  intros Hk H. destruct k; [congruence| |]; simpl in H.
  - rewrite fetchUserData_shape in H.
    destruct user_fetch_shape as [c [E Hc]]. rewrite E in H.
    destruct (truthy (userData r)) eqn:Ht.
    + inversion H; subst. apply cr_cached. simpl. now rewrite Ht.
    + destruct (isApiAvailable r) eqn:Ha; simpl in H.
      * inversion H; subst.
        apply (cr_fetch Profile r w c); simpl; congruence.
      * inversion H; subst.
        apply (cr_delay Profile r w); simpl; congruence.
  - unfold fetchProducts in H.
    destruct (length_gt_zero (products r)) as [[|]|e|] eqn:Ht; simpl in H.
    + inversion H; subst. now apply cr_cached.
    + destruct (isApiAvailable r) eqn:Ha; simpl in H.
      * destruct products_fetch_shape as [c [E Hc]].
        inversion H; subst.
        apply (cr_fetch Catalog r w _); simpl; try congruence.
        intros [[s [v|]]| |]; reflexivity.
      * inversion H; subst.
        apply (cr_delay Catalog r w); simpl; congruence.
    + inversion H; subst. now apply cr_threw.
    + discriminate.
Qed.

(** A call of a loader leaves the model only through its cache test. *)
Lemma exec_loader_total k r w :
  cache_test k r <> Unmodelled ->
  exists w', exec k (loader k r) w = Some w'.
Proof.
  intros H. destruct k; simpl in H; unfold loader.
  - destruct fetchData_shape as [c [E _]]. rewrite E. simpl. eauto.
  - rewrite fetchUserData_shape.
    destruct user_fetch_shape as [c [E _]]. rewrite E.
    destruct (truthy (userData r)); [simpl; eauto|].
    destruct (isApiAvailable r); simpl; eauto.
  - unfold fetchProducts.
    destruct (length_gt_zero (products r)) as [[|]|e|]; simpl; eauto.
    + destruct (isApiAvailable r); simpl; eauto.
    + congruence.
Qed.

Lemma Tab_eqb_eq a b : Tab_eqb a b = true <-> a = b.
Proof. destruct a, b; simpl; split; congruence. Qed.

Lemma Tab_eqb_neq a b : Tab_eqb a b = false <-> a <> b.
Proof. destruct a, b; simpl; split; congruence. Qed.

Lemma take_task_Forall (P : nat * (Resource * Task) -> Prop) n l t rest :
  take_task n l = Some (t, rest) ->
  Forall P l ->
  P (n, t) /\ Forall P rest.
Proof.
  revert t rest. induction l as [|[m x] l IH]; intros t rest H F; simpl in H.
  - discriminate.
  - inversion F as [|? ? Px Fl]; subst.
    destruct (Nat.eqb m n) eqn:E.
    + apply Nat.eqb_eq in E. inversion H; subst. auto.
    + destruct (take_task n l) as [[t' rest']|] eqn:T; [|discriminate].
      inversion H; subst.
      destruct (IH _ _ eq_refl Fl) as [Pt Fr]. auto.
Qed.

Lemma step_transition w e w' :
  tasks_ok w ->
  step w e = Some w' ->
  transition w e w'.
Proof.
  intros Hok H. destruct e as [t|n o|n]; simpl in H.
  - destruct (Tab_eqb t (activeTab (st w))) eqn:E.
    + apply Tab_eqb_eq in E. inversion H; subst. now apply tr_same.
    + apply Tab_eqb_neq in E.
      destruct t.
      * simpl in H. inversion H; subst. apply tr_welcome. congruence.
      * apply tr_load; [discriminate|congruence|].
        apply exec_loader; [discriminate|exact H].
      * apply tr_load; [discriminate|congruence|].
        apply exec_loader; [discriminate|exact H].
  - destruct (take_task n (pending w)) as [[[k [url ms c|ms c]] rest]|] eqn:T;
      try discriminate.
    destruct (take_task_Forall _ _ _ _ _ T Hok) as [[Hu [Hm Hc]] _].
    simpl in Hu, Hm.
    rewrite Hc, exec_calls in H. inversion H; subst.
    eapply tr_settle; eauto.
  - destruct (take_task n (pending w)) as [[[k [url ms c|ms c]] rest]|] eqn:T;
      try discriminate.
    destruct (take_task_Forall _ _ _ _ _ T Hok) as [[Hk [Hm Hc]] _].
    simpl in Hk, Hm.
    rewrite Hc, exec_calls in H. inversion H; subst.
    eapply tr_timer; eauto.
Qed.

Lemma transition_tasks_ok w e w' :
  tasks_ok w -> transition w e w' -> tasks_ok w'.
Proof.
  unfold tasks_ok. intros Hok T.
  destruct T as [t E|E|t w' Ht E C|n o k url ms c rest T Hu Hm|n k ms c rest T Hk Hm].
  - exact Hok.
  - exact Hok.
  - destruct C as [_|e _|_ _|c _ _ Hc]; simpl; try exact Hok.
    + apply Forall_app. split; [exact Hok|]. constructor; [|constructor].
      simpl. repeat split. now destruct t.
    + apply Forall_app. split; [exact Hok|]. constructor; [|constructor].
      simpl. auto.
  - rewrite performs_pending. simpl.
    now destruct (take_task_Forall _ _ _ _ _ T Hok).
  - rewrite performs_pending. simpl.
    now destruct (take_task_Forall _ _ _ _ _ T Hok).
Qed.

(** What mounting does, under static hosting and otherwise. *)
Lemma mount_static hostname :
  static_host hostname = true ->
  mount hostname = Some (performs static_mount_calls emptyWorld).
Proof.
  intros H. unfold mount, mount_effect. rewrite H. reflexivity.
Qed.

Lemma mount_probe hostname :
  static_host hostname = false ->
  exists c,
    mount hostname =
      Some (suspend Greeting (TFetch "/api/hello" 3000 c)
              (Requested "/api/hello" 3000) emptyWorld)
    /\ forall o, c o = calls (settled_calls Greeting o).
Proof.
  intros H. unfold mount, mount_effect. rewrite H.
  destruct fetchData_shape as [c [E Hc]]. rewrite E. simpl.
  exists c. split; [reflexivity|exact Hc].
Qed.

Lemma mount_tasks_ok hostname w :
  mount hostname = Some w -> tasks_ok w.
Proof.
  intros H. destruct (static_host hostname) eqn:S.
  - rewrite (mount_static _ S) in H. injection H as <-.
    unfold tasks_ok. simpl. constructor.
  - destruct (mount_probe _ S) as [c [E Hc]]. rewrite E in H.
    inversion H; subst. unfold tasks_ok. simpl.
    constructor; [|constructor]. simpl. auto.
Qed.

(** Induction over the sessions of a host. *)
Lemma run_invariant (P : World -> Prop) :
  (forall w e w', tasks_ok w -> P w -> transition w e w' -> P w') ->
  forall es w w', tasks_ok w -> P w -> run w es = Some w' -> tasks_ok w' /\ P w'.
Proof.
  intros Hstep es. induction es as [|e es IH]; intros w w' Hok HP H; simpl in H.
  - inversion H; subst. auto.
  - destruct (step w e) as [w1|] eqn:E; [|discriminate].
    pose proof (step_transition _ _ _ Hok E) as T.
    apply (IH w1 w'); auto.
    + eapply transition_tasks_ok; eauto.
    + eapply Hstep; eauto.
Qed.

Lemma session_invariant (P : World -> Prop) hostname :
  (forall w, mount hostname = Some w -> P w) ->
  (forall w e w', tasks_ok w -> P w -> transition w e w' -> P w') ->
  forall es w, session hostname es = Some w -> tasks_ok w /\ P w.
Proof.
  intros Hm Hs es w H. unfold session in H.
  destruct (mount hostname) as [w0|] eqn:M; [|discriminate].
  eapply run_invariant; eauto using mount_tasks_ok.
Qed.

Lemma session_tasks_ok hostname es w :
  session hostname es = Some w -> tasks_ok w.
Proof.
  intros H.
  now destruct (session_invariant (fun _ => True) hostname
                  (fun _ _ => I) (fun _ _ _ _ _ _ => I) es w H).
Qed.

(** ** Settling a pending suspension *)

Lemma task_at_take n w t :
  task_at n w = Some t ->
  exists rest, take_task n (pending w) = Some (t, rest).
Proof.
  unfold task_at. destruct (take_task n (pending w)) as [[t' rest]|]; [|discriminate].
  intros H. inversion H; subst. eauto.
Qed.

Lemma settle_fetch w n k url ms c :
  tasks_ok w ->
  task_at n w = Some (k, TFetch url ms c) ->
  url = url_of k /\ ms = 3000 /\
  exists rest,
    take_task n (pending w) = Some ((k, TFetch url ms c), rest) /\
    forall o, step w (Settle n o) = Some (performs (settled_calls k o) (with_pending rest w)).
Proof.
  intros Hok H. destruct (task_at_take _ _ _ H) as [rest T].
  destruct (take_task_Forall _ _ _ _ _ T Hok) as [[Hu [Hm Hc]] _].
  simpl in Hu, Hm. repeat split; auto.
  exists rest. split; [exact T|]. intros o. simpl. rewrite T, Hc.
  apply exec_calls.
Qed.

Lemma fire_timer w n k ms c :
  tasks_ok w ->
  task_at n w = Some (k, TDelay ms c) ->
  k <> Greeting /\ ms = 1000 /\
  exists rest,
    take_task n (pending w) = Some ((k, TDelay ms c), rest) /\
    step w (TimerFired n) = Some (performs (delayed_calls k) (with_pending rest w)).
Proof.
  intros Hok H. destruct (task_at_take _ _ _ H) as [rest T].
  destruct (take_task_Forall _ _ _ _ _ T Hok) as [[Hk [Hm Hc]] _].
  simpl in Hk, Hm. repeat split; auto.
  exists rest. split; [exact T|]. simpl. rewrite T, Hc.
  apply exec_calls.
Qed.

Lemma unhandled_app a b : unhandled (a ++ b) = unhandled a ++ unhandled b.
Proof. apply filter_app. Qed.

Lemma unhandled_calls cs : unhandled (map Called cs) = [].
Proof. induction cs; simpl; auto. Qed.

Lemma performs_unhandled cs w :
  unhandled (trace (performs cs w)) = unhandled (trace w).
Proof.
  rewrite performs_trace, unhandled_app, unhandled_calls. apply app_nil_r.
Qed.

(** The state a failed load leaves. *)
Lemma failure_state k e s :
  apply_calls (failure_calls k e) s =
  apply_calls [ set_loaded k (fallback_of k); setIsApiAvailable false;
                set_loading_flag k false ] s.
Proof. reflexivity. Qed.

(** ** The claims *)

(** C1. For each of the three resources, when a pending load attempt of a
    session fails, by a connection failure or by the timeout, the loader stores
    the fallback value of the resource, sets the availability flag to false and
    clears the loading flag, and its promise does not reject; the two kinds of
    failure leave the same component state. *)
Theorem C1_failure_stores_fallback :
  forall hostname es w n k url ms c,
    session hostname es = Some w ->
    task_at n w = Some (k, TFetch url ms c) ->
    exists w1 w2,
      step w (Settle n ConnectionFailed) = Some w1 /\
      step w (Settle n TimedOut) = Some w2 /\
      st w1 = st w2 /\
      st w1 = apply_calls [ set_loaded k (fallback_of k); setIsApiAvailable false;
                            set_loading_flag k false ] (st w) /\
      loaded k (st w1) = fallback_of k /\
      isApiAvailable (st w1) = false /\
      unhandled (trace w1) = unhandled (trace w) /\
      unhandled (trace w2) = unhandled (trace w).
Proof.
  intros hostname es w n k url ms c Hs Ht.
  pose proof (session_tasks_ok _ _ _ Hs) as Hok.
  destruct (settle_fetch _ _ _ _ _ _ Hok Ht) as [_ [_ [rest [_ Hstep]]]].
  exists (performs (settled_calls k ConnectionFailed) (with_pending rest w)),
         (performs (settled_calls k TimedOut) (with_pending rest w)).
  split; [apply Hstep|]. split; [apply Hstep|].
  rewrite !performs_st, !performs_unhandled. simpl settled_calls.
  rewrite !failure_state. simpl st.
  repeat split; destruct k; reflexivity.
Qed.

Lemma C1_failure_stores_fallback_witness :
  session "localhost" [Click tab_user] = Some (world_of profile_opened) /\
  (exists c, task_at 1 (world_of profile_opened)
             = Some (Profile, TFetch "/api/user" 3000 c)) /\
  exists w1 w2,
    step (world_of profile_opened) (Settle 1 ConnectionFailed) = Some w1 /\
    step (world_of profile_opened) (Settle 1 TimedOut) = Some w2 /\
    st w1 = st w2 /\
    st w1 = apply_calls [ setUserData (user_value FALLBACK_DATA.user);
                          setIsApiAvailable false; setUserLoading false ]
              (st (world_of profile_opened)) /\
    userData (st w1) = user_value FALLBACK_DATA.user /\
    isApiAvailable (st w1) = false /\
    unhandled (trace w1) = unhandled (trace (world_of profile_opened)) /\
    unhandled (trace w2) = unhandled (trace (world_of profile_opened)).
Proof.
  split; [reflexivity|]. split; [eexists; reflexivity|].
  eapply (C1_failure_stores_fallback "localhost" [Click tab_user]
            (world_of profile_opened) 1 Profile "/api/user" 3000).
  - reflexivity.
  - reflexivity.
Defined.

(** The same on the other two resources: the probe that times out, and the
    catalog request whose connection fails. *)
Example probe_timeout_falls_back :
  option_map
    (fun w => (message (st w), isApiAvailable (st w), loading (st w), unhandled (trace w)))
    (session "localhost" [Settle 0 TimedOut])
  = Some (JStr FALLBACK_DATA.message, false, false, []).
Proof. vm_compute; reflexivity. Qed.

Example catalog_failure_falls_back :
  option_map
    (fun w => (products (st w), isApiAvailable (st w), productsLoading (st w),
               unhandled (trace w)))
    (session "localhost" [Click tab_products; Settle 1 ConnectionFailed])
  = Some (products_value FALLBACK_DATA.products, false, false, []).
Proof. vm_compute; reflexivity. Qed.

(** ** Static hosting *)

Lemma requests_app a b : requests (a ++ b) = requests a ++ requests b.
Proof. apply filter_app. Qed.

Lemma requests_calls cs : requests (map Called cs) = [].
Proof. induction cs; simpl; auto. Qed.

Lemma degraded_transition w e w' :
  tasks_ok w -> degraded w -> transition w e w' -> degraded w'.
Proof.
  intros _ (Ha & Hl & Hm & Hr & Hp) T.
  destruct T as [t E|E|t w' Ht E C|n o k url ms c rest T Hu Hms|n k ms c rest T Hk Hms].
  - repeat split; assumption.
  - repeat split; simpl; auto.
    rewrite requests_app, Hr. reflexivity.
  - destruct C as [_|e _|_ _|c _ Hav _].
    + repeat split; simpl; auto. rewrite requests_app, Hr. reflexivity.
    + repeat split; simpl; auto. rewrite !requests_app, Hr. reflexivity.
    + repeat split; simpl.
      * destruct t; simpl; auto.
      * destruct t; simpl; auto.
      * destruct t; simpl; auto.
      * rewrite !requests_app, Hr. reflexivity.
      * apply Forall_app. split; [exact Hp|]. constructor; [exact I|constructor].
    + simpl in Hav. congruence.
  - destruct (take_task_Forall _ _ _ _ _ T Hp) as [F _]. destruct F.
  - destruct (take_task_Forall _ _ _ _ _ T Hp) as [_ F].
    unfold degraded. rewrite performs_st, performs_trace, performs_pending.
    rewrite requests_app, requests_calls. simpl. rewrite Hr.
    repeat split; auto; destruct k; simpl; auto; congruence.
Qed.

Lemma degraded_static_mount : degraded (performs static_mount_calls emptyWorld).
Proof. repeat split. constructor. Qed.

Lemma testable_transition w e w' :
  tasks_ok w ->
  degraded w /\ catalog_testable w ->
  transition w e w' ->
  degraded w' /\ catalog_testable w'.
Proof.
  intros Hok [D C] T. split; [eapply degraded_transition; eauto|].
  destruct D as (_ & _ & _ & _ & Hp).
  unfold catalog_testable in *.
  destruct T as [t E|E|t w' Ht E R|n o k url ms c rest T Hu Hms|n k ms c rest T Hk Hms].
  - exact C.
  - exact C.
  - destruct R; try exact C; destruct t; exact C.
  - destruct (take_task_Forall _ _ _ _ _ T Hp) as [F _]. destruct F.
  - rewrite performs_st. destruct k; try exact C.
    exists true. reflexivity.
Qed.

(** A session on a static host never leaves the model: every click is
    handled. *)
Lemma static_session_clicks hostname es w t :
  static_host hostname = true ->
  session hostname es = Some w ->
  exists w', step w (Click t) = Some w'.
Proof.
  intros S H.
  destruct (session_invariant (fun w => degraded w /\ catalog_testable w) hostname)
    with (es := es) (w := w) as [_ [_ [b Hb]]]; auto.
  - intros w0 M. rewrite (mount_static _ S) in M. inversion M; subst.
    split; [apply degraded_static_mount|]. exists false. reflexivity.
  - apply testable_transition.
  - simpl. destruct (Tab_eqb t (activeTab (st w))); [eauto|].
    destruct t.
    + simpl. eauto.
    + apply (exec_loader_total Profile). discriminate.
    + apply (exec_loader_total Catalog). simpl in *. rewrite Hb. discriminate.
Qed.

(** C5. When the mount effect finds a static-hosting host name, mounting sends
    no request and leaves nothing pending: the availability flag is false and
    the greeting is the fallback message as soon as the effect has run; and in
    every session of that host no request is ever sent, for any resource, and
    the flag stays false. *)
Theorem C5_static_host_never_requests :
  forall hostname,
    static_host hostname = true ->
    exists w0,
      mount hostname = Some w0 /\
      pending w0 = [] /\
      trace w0 = map Called static_mount_calls /\
      message (st w0) = JStr FALLBACK_DATA.message /\
      isApiAvailable (st w0) = false /\
      isNetlify (st w0) = true /\
      loading (st w0) = false /\
      forall es w,
        session hostname es = Some w ->
        requests (trace w) = [] /\
        isApiAvailable (st w) = false /\
        message (st w) = JStr FALLBACK_DATA.message.
Proof.
  intros hostname S.
  exists (performs static_mount_calls emptyWorld).
  split; [now apply mount_static|].
  repeat (split; [reflexivity|]).
  intros es w H.
  destruct (session_invariant degraded hostname) with (es := es) (w := w)
    as [_ (Ha & _ & Hm & Hr & _)]; auto.
  - intros w0 M. rewrite (mount_static _ S) in M. inversion M; subst.
    apply degraded_static_mount.
  - apply degraded_transition.
Qed.

Lemma C5_static_host_never_requests_witness :
  static_host "express-react-demo.netlify.app" = true /\
  exists w0,
    mount "express-react-demo.netlify.app" = Some w0 /\
    pending w0 = [] /\
    trace w0 = map Called static_mount_calls /\
    message (st w0) = JStr FALLBACK_DATA.message /\
    isApiAvailable (st w0) = false /\
    isNetlify (st w0) = true /\
    loading (st w0) = false /\
    forall es w,
      session "express-react-demo.netlify.app" es = Some w ->
      requests (trace w) = [] /\
      isApiAvailable (st w) = false /\
      message (st w) = JStr FALLBACK_DATA.message.
Proof.
  split; [reflexivity|].
  apply (C5_static_host_never_requests "express-react-demo.netlify.app").
  reflexivity.
Defined.

(** ** The probe and the responses *)

Lemma prop_message_modelled v : prop_message v <> Unmodelled.
Proof.
  destruct v as [ | | | | | |ms]; simpl; try discriminate.
  destruct (own_member "message" ms); discriminate.
Qed.

(** C6. On a host that is not a static-hosting one, when the provider answers
    the pending probe of /api/hello (sent with the 3000 ms bound) before the
    bound with the body [{message: "Hello from Express server!"}], the
    greeting is exactly that string and the availability flag is true
    afterwards, whatever the status. *)
Theorem C6_probe_answered :
  forall hostname es w n url ms c status,
    static_host hostname = false ->
    session hostname es = Some w ->
    task_at n w = Some (Greeting, TFetch url ms c) ->
    url = "/api/hello" /\ ms = 3000 /\
    exists w',
      step w (Settle n (hello_answer status)) = Some w' /\
      message (st w') = JStr "Hello from Express server!" /\
      isApiAvailable (st w') = true /\
      loading (st w') = false.
Proof.
  intros hostname es w n url ms c status _ Hs Ht.
  pose proof (session_tasks_ok _ _ _ Hs) as Hok.
  destruct (settle_fetch _ _ _ _ _ _ Hok Ht) as [Hu [Hm [rest [_ Hstep]]]].
  split; [exact Hu|]. split; [exact Hm|].
  eexists. split; [apply Hstep|].
  rewrite performs_st. repeat split.
Qed.

Lemma C6_probe_answered_witness :
  static_host "localhost" = false /\
  session "localhost" [] = Some (world_of (session "localhost" [])) /\
  exists w',
    step (world_of (session "localhost" [])) (Settle 0 (hello_answer 200)) = Some w' /\
    message (st w') = JStr "Hello from Express server!" /\
    isApiAvailable (st w') = true /\
    loading (st w') = false.
Proof.
  split; [reflexivity|]. split; [reflexivity|].
  eapply (C6_probe_answered "localhost" [] (world_of (session "localhost" []))
            0 "/api/hello" 3000 _ 200).
  - reflexivity.
  - reflexivity.
  - reflexivity.
Defined.

(** The probe's answer is the payload the provider sends for /api/hello. *)
Lemma hello_answer_is_served req status :
  hello_answer status =
  Responded (mkResponse status (BodyJson (Server.payload_of (Server.hello req)))).
Proof. reflexivity. Qed.

(** C7. In every session, whichever way a pending load completes (its request
    is answered with any status and body, fails, or times out, or its
    simulated delay ends), the loading flag of its resource is false
    afterwards; the greeting assigned at mount on a static host leaves its
    loading flag false as well. *)
Theorem C7_loading_flag_cleared :
  forall hostname es w,
    session hostname es = Some w ->
    (forall n k url ms c o,
        task_at n w = Some (k, TFetch url ms c) ->
        exists w', step w (Settle n o) = Some w' /\ loading_flag k (st w') = false) /\
    (forall n k ms c,
        task_at n w = Some (k, TDelay ms c) ->
        exists w', step w (TimerFired n) = Some w' /\ loading_flag k (st w') = false) /\
    (static_host hostname = true -> loading_flag Greeting (st w) = false).
Proof.
  intros hostname es w Hs.
  pose proof (session_tasks_ok _ _ _ Hs) as Hok.
  split; [|split].
  - intros n k url ms c o Ht.
    destruct (settle_fetch _ _ _ _ _ _ Hok Ht) as [_ [_ [rest [_ Hstep]]]].
    eexists. split; [apply Hstep|].
    rewrite performs_st.
    destruct o as [[s [v|]]| |]; destruct k; try reflexivity.
    cbn [settled_calls body].
    destruct (prop_message v) eqn:E; try reflexivity.
    now apply prop_message_modelled in E.
  - intros n k ms c Ht.
    destruct (fire_timer _ _ _ _ _ Hok Ht) as [Hk [_ [rest [_ Hstep]]]].
    eexists. split; [apply Hstep|].
    rewrite performs_st. destruct k; reflexivity.
  - intros S.
    destruct (session_invariant degraded hostname) with (es := es) (w := w)
      as [_ (_ & Hl & _)]; auto.
    + intros w0 M. rewrite (mount_static _ S) in M. inversion M; subst.
      apply degraded_static_mount.
    + apply degraded_transition.
Qed.

Lemma C7_loading_flag_cleared_witness :
  session "localhost" [Click tab_user] = Some (world_of profile_opened) /\
  (forall o, exists w',
      step (world_of profile_opened) (Settle 1 o) = Some w' /\
      userLoading (st w') = false).
Proof.
  split; [reflexivity|]. intros o.
  destruct (C7_loading_flag_cleared "localhost" [Click tab_user]
              (world_of profile_opened) eq_refl) as [H _].
  eapply (H 1%nat Profile "/api/user" 3000 _ o). reflexivity.
Defined.

Lemma availability_writes_app a b :
  availability_writes (a ++ b) = availability_writes a ++ availability_writes b.
Proof.
  induction a as [|e a IH]; simpl; [reflexivity|].
  destruct e as [c| | |]; try exact IH.
  destruct c; simpl; try exact IH. now rewrite IH.
Qed.

(** C10, as stated, fails for the greeting: a response to the probe whose body
    parses as JSON, to [null], makes [data.message] throw, and the catch block
    substitutes the fallback message and sets the availability flag to false. *)
Lemma C10_counterexample :
  option_map
    (fun w => (message (st w), isApiAvailable (st w), availability_writes (trace w)))
    (session "localhost" [Settle 0 null_answer])
  = Some (JStr FALLBACK_DATA.message, false, [false]).
Proof. reflexivity. Qed.

(** C10, amended. The client never reads the response status. In every
    session, a response to a pending load whose body parses as JSON is
    handled by the success path, whatever its status: for the profile and the
    catalog the parsed body is stored and the availability flag is not
    written; for the greeting, provided the body is not [null], the body's
    [message] member is stored and the flag is set to true. The fallback is
    not substituted and the flag is not set to false. *)
Theorem C10_parsed_body_is_stored :
  forall hostname es w n k url ms c status v,
    session hostname es = Some w ->
    task_at n w = Some (k, TFetch url ms c) ->
    (k = Greeting -> v <> JNull /\ v <> JUndefined) ->
    exists w',
      step w (Settle n (Responded (mkResponse status (BodyJson v)))) = Some w' /\
      st w' = apply_calls (success_calls k (stored_on_success k v)) (st w) /\
      trace w' = trace w ++ map Called (success_calls k (stored_on_success k v)) /\
      loaded k (st w') = stored_on_success k v /\
      loading_flag k (st w') = false /\
      isApiAvailable (st w') =
        match k with
        | Greeting => true
        | _ => isApiAvailable (st w)
        end.
Proof.
  intros hostname es w n k url ms c status v Hs Ht Hv.
  pose proof (session_tasks_ok _ _ _ Hs) as Hok.
  destruct (settle_fetch _ _ _ _ _ _ Hok Ht) as [_ [_ [rest [_ Hstep]]]].
  eexists. split; [apply Hstep|].
  rewrite performs_st, performs_trace.
  assert (E : settled_calls k (Responded (mkResponse status (BodyJson v)))
              = success_calls k (stored_on_success k v)).
  { destruct k; try reflexivity.
    destruct (Hv eq_refl) as [H1 H2].
    destruct v as [ | | | | | |members]; try congruence; try reflexivity.
    simpl. unfold stored_on_success. simpl.
    destruct (own_member "message" members); reflexivity. }
  rewrite E. simpl st. simpl trace.
  repeat split; destruct k; reflexivity.
Qed.

Lemma C10_parsed_body_is_stored_witness :
  session "localhost" [Click tab_user] = Some (world_of profile_opened) /\
  exists w',
    step (world_of profile_opened)
      (Settle 1 (Responded (mkResponse 404 (BodyJson (JObj [("error", JStr "Not Found")])))))
      = Some w' /\
    st w' = apply_calls
              (success_calls Profile
                 (stored_on_success Profile (JObj [("error", JStr "Not Found")])))
              (st (world_of profile_opened)) /\
    trace w' = trace (world_of profile_opened) ++
               map Called (success_calls Profile
                 (stored_on_success Profile (JObj [("error", JStr "Not Found")]))) /\
    userData (st w') = JObj [("error", JStr "Not Found")] /\
    userLoading (st w') = false /\
    isApiAvailable (st w') = isApiAvailable (st (world_of profile_opened)).
Proof.
  split; [reflexivity|].
  eapply (C10_parsed_body_is_stored "localhost" [Click tab_user]
            (world_of profile_opened) 1 Profile "/api/user" 3000 _ 404
            (JObj [("error", JStr "Not Found")])).
  - reflexivity.
  - reflexivity.
  - discriminate.
Defined.

(** ** The availability flag over a session *)

Lemma sticky_extend w1 w w' t' :
  sticky w1 w ->
  trace w' = trace w ++ t' ->
  Forall (fun b => b = false) (availability_writes t') ->
  isApiAvailable (st w') = false ->
  probe_settled w' ->
  sticky w1 w'.
Proof.
  intros (_ & _ & t & Et & Ft) E F Ha Hp.
  repeat split; auto.
  exists (t ++ t'). split.
  - rewrite E, Et. now rewrite app_assoc.
  - rewrite availability_writes_app. apply Forall_app. auto.
Qed.

Lemma sticky_transition w1 w e w' :
  tasks_ok w -> sticky w1 w -> transition w e w' -> sticky w1 w'.
Proof.
  intros _ S T. pose proof S as (Ha & Hp & _).
  destruct T as [t E|E|t w' Ht E C|n o k url ms c rest T Hu Hms|n k ms c rest T Hk Hms].
  - exact S.
  - apply (sticky_extend w1 w _ [Called (setActiveTab tab_welcome)] S); simpl; auto.
  - destruct C as [_|e _|_ _|c _ _ Hc].
    + apply (sticky_extend w1 w _ [Called (setActiveTab t)] S); simpl; auto.
    + apply (sticky_extend w1 w _ [Called (setActiveTab t); Unhandled e] S);
        simpl; auto. now rewrite <- app_assoc.
    + apply (sticky_extend w1 w _
               [Called (setActiveTab t);
                Called (set_loading_flag (tab_resource t) true);
                TimerStarted 1000] S).
      * simpl. now rewrite <- !app_assoc.
      * destruct t; simpl; auto.
      * destruct t; simpl; auto.
      * unfold probe_settled. simpl. apply Forall_app. split; [exact Hp|].
        constructor; [|constructor]. simpl. destruct t; discriminate.
    + apply (sticky_extend w1 w _
               [Called (setActiveTab t);
                Called (set_loading_flag (tab_resource t) true);
                Requested (url_of (tab_resource t)) 3000] S).
      * simpl. now rewrite <- !app_assoc.
      * destruct t; simpl; auto.
      * destruct t; simpl; auto.
      * unfold probe_settled. simpl. apply Forall_app. split; [exact Hp|].
        constructor; [|constructor]. simpl. destruct t; discriminate.
  - destruct (take_task_Forall _ _ _ _ _ T Hp) as [Hk Hrest]. simpl in Hk.
    apply (sticky_extend w1 w _ (map Called (settled_calls k o)) S).
    + now rewrite performs_trace.
    + destruct k; [congruence| |];
        destruct o as [[s [v|]]| |]; simpl; auto.
    + rewrite performs_st.
      destruct k; [congruence| |];
        destruct o as [[s [v|]]| |]; simpl; auto.
    + unfold probe_settled. rewrite performs_pending. exact Hrest.
  - destruct (take_task_Forall _ _ _ _ _ T Hp) as [_ Hrest].
    apply (sticky_extend w1 w _ (map Called (delayed_calls k)) S).
    + now rewrite performs_trace.
    + destruct k; simpl; auto.
    + rewrite performs_st. destruct k; simpl; auto.
    + unfold probe_settled. rewrite performs_pending. exact Hrest.
Qed.

(** C3, as stated, fails: after the failed profile load has set the flag to
    false, the answered probe sets it back to true. *)
Lemma C3_counterexample :
  option_map (fun w => isApiAvailable (st w))
    (session "localhost" [Click tab_user; Settle 1 ConnectionFailed]) = Some false /\
  option_map (fun w => (isApiAvailable (st w), availability_writes (trace w)))
    (session "localhost" late_probe) = Some (true, [false; true]).
Proof. split; reflexivity. Qed.

(** C3, amended. The success path of the probe is the only writer of true.
    In every session, once the availability flag is false and the probe is no
    longer pending (it has settled, or the static host skipped it), every
    later write to the flag writes false and the flag is false in every later
    world. *)
Theorem C3_flag_stays_false_after_probe :
  forall hostname es1 w1 es2 w2,
    session hostname es1 = Some w1 ->
    isApiAvailable (st w1) = false ->
    probe_settled w1 ->
    run w1 es2 = Some w2 ->
    isApiAvailable (st w2) = false /\
    exists t, trace w2 = trace w1 ++ t /\
              Forall (fun b => b = false) (availability_writes t).
Proof.
  intros hostname es1 w1 es2 w2 Hs Ha Hp Hr.
  pose proof (session_tasks_ok _ _ _ Hs) as Hok.
  destruct (run_invariant (sticky w1) (sticky_transition w1) es2 w1 w2 Hok)
    as [_ (Ha2 & _ & Ht)]; auto.
  repeat split; auto.
  exists []. split; [now rewrite app_nil_r|constructor].
Qed.

Lemma C3_flag_stays_false_after_probe_witness :
  session "localhost" [Settle 0 TimedOut] = Some (world_of probe_timed_out) /\
  isApiAvailable (st (world_of probe_timed_out)) = false /\
  probe_settled (world_of probe_timed_out) /\
  run (world_of probe_timed_out) browsing
    = Some (world_of (run (world_of probe_timed_out) browsing)) /\
  isApiAvailable (st (world_of (run (world_of probe_timed_out) browsing))) = false /\
  exists t,
    trace (world_of (run (world_of probe_timed_out) browsing))
      = trace (world_of probe_timed_out) ++ t /\
    Forall (fun b => b = false) (availability_writes t).
Proof.
  split; [reflexivity|]. split; [reflexivity|]. split; [constructor|].
  split; [vm_compute; reflexivity|].
  apply (C3_flag_stays_false_after_probe "localhost" [Settle 0 TimedOut]
           (world_of probe_timed_out) browsing
           (world_of (run (world_of probe_timed_out) browsing))).
  - reflexivity.
  - reflexivity.
  - constructor.
  - vm_compute; reflexivity.
Defined.

(** ** Caching *)

Lemma requests_to_app url a b :
  requests_to url (a ++ b) = (requests_to url a + requests_to url b)%nat.
Proof. unfold requests_to. now rewrite filter_app, length_app. Qed.

Lemma requests_to_calls url cs : requests_to url (map Called cs) = 0%nat.
Proof. unfold requests_to. induction cs; simpl; auto. Qed.

Lemma probed_once_transition w e w' :
  tasks_ok w -> probed_once w -> transition w e w' -> probed_once w'.
Proof.
  unfold probed_once. intros _ P T.
  remember (requests_to "/api/hello" (trace w)) as N eqn:EN.
  destruct T as [t E|E|t w' Ht E C|n o k url ms c rest T Hu Hms|n k ms c rest T Hk Hms].
  - now rewrite <- EN.
  - simpl trace. rewrite requests_to_app, <- EN. unfold requests_to. simpl. lia.
  - destruct C as [_|e _|_ _|c _ _ Hc]; simpl trace;
      rewrite ?requests_to_app, <- EN; unfold requests_to;
      destruct t; simpl; try lia; congruence.
  - rewrite performs_trace, requests_to_app, requests_to_calls. simpl trace.
    rewrite <- EN. lia.
  - rewrite performs_trace, requests_to_app, requests_to_calls. simpl trace.
    rewrite <- EN. lia.
Qed.

Lemma probed_once_mount hostname w : mount hostname = Some w -> probed_once w.
Proof.
  intros M. unfold probed_once. destruct (static_host hostname) eqn:S.
  - rewrite (mount_static _ S) in M. inversion M; subst.
    unfold requests_to. simpl. lia.
  - destruct (mount_probe _ S) as [c [E _]]. rewrite E in M.
    inversion M; subst. unfold requests_to. simpl. lia.
Qed.

(** C2, as stated, fails for the catalog: after a load that completed
    successfully with an empty list (stored, loading flag cleared, nothing
    pending), the next call of the loader sends the request again. *)
Lemma C2_counterexample :
  option_map
    (fun w => (products (st w), productsLoading (st w), isApiAvailable (st w),
               List.length (pending w), requests_to "/api/products" (trace w)))
    (session "localhost" empty_catalog_loaded)
  = Some (JArr [], false, true, 0%nat, 1%nat) /\
  option_map
    (fun w => (productsLoading (st w), List.length (pending w),
               requests_to "/api/products" (trace w)))
    (session "localhost" (empty_catalog_loaded ++ [Click tab_welcome; Click tab_products]))
  = Some (true, 1%nat, 2%nat).
Proof. split; vm_compute; reflexivity. Qed.

(** C2, amended. For the profile and the catalog, in every session, a call of
    the loader made while the stored value passes the loader's own test (a
    truthy profile, a catalog whose length is greater than 0) returns at once
    and changes nothing: no state, no request, no timer; the fallback value of
    either resource passes that test once stored. The greeting is requested at
    most once in a session, by the mount effect. *)
Theorem C2_cached_call_returns :
  forall hostname es w k,
    session hostname es = Some w ->
    k <> Greeting ->
    cache_test k (st w) = Normal true ->
    loader k (st w) = Ret tt /\
    exec k (loader k (st w)) w = Some w /\
    (forall s, cache_test k (apply_call (set_loaded k (fallback_of k)) s) = Normal true) /\
    (requests_to "/api/hello" (trace w) <= 1)%nat.
Proof.
  intros hostname es w k Hs Hk Hc.
  assert (L : loader k (st w) = Ret tt).
  { destruct k; [congruence| |]; simpl in *.
    - unfold fetchUserData. injection Hc as ->. reflexivity.
    - unfold fetchProducts. rewrite Hc. reflexivity. }
  split; [exact L|]. split; [now rewrite L|]. split.
  - intros s. destruct k; [congruence| |]; reflexivity.
  - destruct (session_invariant probed_once hostname) with (es := es) (w := w)
      as [_ P]; auto.
    + apply probed_once_mount.
    + apply probed_once_transition.
Qed.

Lemma C2_cached_call_returns_witness :
  session "demo.netlify.app" [Click tab_products; TimerFired 0; Click tab_welcome]
    = Some (world_of fallback_catalog_loaded) /\
  cache_test Catalog (st (world_of fallback_catalog_loaded)) = Normal true /\
  loader Catalog (st (world_of fallback_catalog_loaded)) = Ret tt /\
  exec Catalog (loader Catalog (st (world_of fallback_catalog_loaded)))
    (world_of fallback_catalog_loaded) = Some (world_of fallback_catalog_loaded) /\
  (forall s, cache_test Catalog
               (apply_call (set_loaded Catalog (fallback_of Catalog)) s) = Normal true) /\
  (requests_to "/api/hello" (trace (world_of fallback_catalog_loaded)) <= 1)%nat.
Proof.
  split; [vm_compute; reflexivity|]. split; [vm_compute; reflexivity|].
  apply (C2_cached_call_returns "demo.netlify.app"
           [Click tab_products; TimerFired 0; Click tab_welcome]
           (world_of fallback_catalog_loaded) Catalog).
  - vm_compute; reflexivity.
  - discriminate.
  - vm_compute; reflexivity.
Defined.

(** ** The degraded path *)

(** C4. For the profile and the catalog: when the loader is called while the
    availability flag is false and the resource is not cached, it raises the
    loading flag, sends no request and starts the 1000 ms delay; when the
    delay ends it assigns the fallback value of the resource (for the catalog,
    the fixed list of six items) and clears the loading flag. *)
Theorem C4_degraded_load_waits_then_falls_back :
  forall k r,
    k <> Greeting ->
    isApiAvailable r = false ->
    cache_test k r = Normal false ->
    loader k r =
      Do (set_loading_flag k true)
        (AwaitDelay 1000
           (Do (set_loaded k (fallback_of k))
              (Do (set_loading_flag k false) (Ret tt)))) /\
    (forall w,
        exists w1 c,
          exec k (loader k r) w = Some w1 /\
          trace w1 = trace w ++ [Called (set_loading_flag k true); TimerStarted 1000] /\
          requests (trace w1) = requests (trace w) /\
          pending w1 = pending w ++ [(next_id w, (k, TDelay 1000 c))] /\
          forall w2,
            exists w3,
              exec k c w2 = Some w3 /\
              st w3 = apply_calls [ set_loaded k (fallback_of k);
                                    set_loading_flag k false ] (st w2) /\
              loaded k (st w3) = fallback_of k /\
              requests (trace w3) = requests (trace w2) /\
              pending w3 = pending w2) /\
    fallback_of Catalog = products_value FALLBACK_DATA.products /\
    List.length FALLBACK_DATA.products = 6%nat.
Proof.
  intros k r Hk Ha Hc.
  assert (L : loader k r =
      Do (set_loading_flag k true)
        (AwaitDelay 1000
           (Do (set_loaded k (fallback_of k))
              (Do (set_loading_flag k false) (Ret tt))))).
  { destruct k; [congruence| |]; simpl in Hc; simpl loader.
    - unfold fetchUserData. injection Hc as ->. rewrite Ha. reflexivity.
    - unfold fetchProducts. rewrite Hc, Ha. reflexivity. }
  split; [exact L|]. split; [|split; reflexivity].
  intros w. rewrite L. simpl exec.
  eexists. eexists. split; [reflexivity|].
  split; [simpl; now rewrite <- app_assoc|].
  split; [simpl; rewrite !requests_app; simpl; now rewrite !app_nil_r|].
  split; [reflexivity|].
  intros w2. eexists. split; [reflexivity|].
  repeat split.
  - destruct k; reflexivity.
  - simpl. rewrite !requests_app. simpl. now rewrite !app_nil_r.
Qed.

Lemma C4_degraded_load_waits_then_falls_back_witness :
  isApiAvailable degraded_render = false /\
  cache_test Catalog degraded_render = Normal false /\
  fetchProducts degraded_render =
    Do (setProductsLoading true)
      (AwaitDelay 1000
         (Do (setProducts (products_value FALLBACK_DATA.products))
            (Do (setProductsLoading false) (Ret tt)))).
Proof.
  split; [reflexivity|]. split; [reflexivity|].
  destruct (C4_degraded_load_waits_then_falls_back Catalog degraded_render)
    as [H _].
  - discriminate.
  - reflexivity.
  - reflexivity.
  - exact H.
Defined.

(** ** The fallback catalog *)

(** C8. The fallback catalog has exactly six items; the item with id 3 is
    "Smart Watch" and is not in stock; every other item is in stock. *)
Theorem C8_fallback_catalog :
  List.length FALLBACK_DATA.products = 6%nat /\
  (exists p, In p FALLBACK_DATA.products /\ id p = 3 /\
             name p = "Smart Watch" /\ inStock p = false) /\
  (forall p, In p FALLBACK_DATA.products -> id p = 3 -> name p = "Smart Watch") /\
  (forall p, In p FALLBACK_DATA.products -> inStock p = negb (id p =? 3)) /\
  map id FALLBACK_DATA.products = [1; 2; 3; 4; 5; 6].
Proof.
  split; [reflexivity|]. split.
  - exists (mkProduct 3 "Smart Watch" 349 "Wearables" false).
    simpl. intuition.
  - split; [|split; [|reflexivity]];
      intros p H; simpl in H;
      repeat (destruct H as [<-|H]; [simpl; try reflexivity; try discriminate|]);
      try contradiction.
Qed.

(** ** The data provider *)





(** The payloads of the provider are the fallback values of the client. *)
Lemma provider_payloads_are_fallbacks req :
  Server.payload_of (Server.user req) = fallback_of Profile /\
  Server.payload_of (Server.products req) = fallback_of Catalog.
Proof. split; reflexivity. Qed.

(** The cache test looks at the stored value only: a second call made while
    the first request is still pending sends the request again. *)
Lemma repeated_call_while_loading :
  option_map
    (fun w => (requests_to "/api/user" (trace w), List.length (pending w)))
    (session "localhost" [Click tab_user; Click tab_welcome; Click tab_user])
  = Some (2%nat, 3%nat).
Proof. vm_compute; reflexivity. Qed.

(** ** Further properties of sessions *)

(** What the calls that remain after a settled request change: the loaded
    value and the loading flag of the resource, and the availability flag. *)
Lemma settled_calls_frame k o s :
  activeTab (apply_calls (settled_calls k o) s) = activeTab s /\
  isNetlify (apply_calls (settled_calls k o) s) = isNetlify s /\
  loading_flag k (apply_calls (settled_calls k o) s) = false /\
  forall k', k' <> k ->
    loaded k' (apply_calls (settled_calls k o) s) = loaded k' s /\
    loading_flag k' (apply_calls (settled_calls k o) s) = loading_flag k' s.
Proof.
  destruct o as [[sta [v|]]| |]; destruct k; cbn [settled_calls body];
    try frame_case.
  destruct (prop_message v) eqn:E; try frame_case.
  now apply prop_message_modelled in E.
Qed.

Lemma delayed_calls_frame k s :
  activeTab (apply_calls (delayed_calls k) s) = activeTab s /\
  isNetlify (apply_calls (delayed_calls k) s) = isNetlify s /\
  isApiAvailable (apply_calls (delayed_calls k) s) = isApiAvailable s /\
  loading_flag k (apply_calls (delayed_calls k) s) = false /\
  forall k', k' <> k ->
    loaded k' (apply_calls (delayed_calls k) s) = loaded k' s /\
    loading_flag k' (apply_calls (delayed_calls k) s) = loading_flag k' s.
Proof. destruct k; frame_case. Qed.

Lemma quiet_transition w1 w e w' :
  tasks_ok w -> quiet w1 w -> transition w e w' -> quiet w1 w'.
Proof.
  intros Hok [S R] T. split; [eapply sticky_transition; eauto|].
  destruct S as (Ha & Hp & _). rewrite <- R.
  destruct T as [t E|E|t w' Ht E C|n o k url ms c rest T Hu Hms|n k ms c rest T Hk Hms].
  - reflexivity.
  - simpl. rewrite requests_app. simpl. apply app_nil_r.
  - destruct C as [_|e _|_ _|c _ Hav _]; simpl;
      rewrite ?requests_app; simpl; rewrite ?app_nil_r; try reflexivity.
    simpl in Hav. congruence.
  - rewrite performs_trace, requests_app, requests_calls. simpl. apply app_nil_r.
  - rewrite performs_trace, requests_app, requests_calls. simpl. apply app_nil_r.
Qed.

(** X1. Once the availability flag is false and the probe has settled, the rest
    of the session sends no request: every later load takes the delay path or
    finds its resource stored. *)
Theorem degraded_session_sends_nothing :
  forall hostname es1 w1 es2 w2,
    session hostname es1 = Some w1 ->
    isApiAvailable (st w1) = false ->
    probe_settled w1 ->
    run w1 es2 = Some w2 ->
    requests (trace w2) = requests (trace w1).
Proof.
  intros hostname es1 w1 es2 w2 Hs Ha Hp Hr.
  pose proof (session_tasks_ok _ _ _ Hs) as Hok.
  destruct (run_invariant (quiet w1) (quiet_transition w1) es2 w1 w2 Hok)
    as [_ [_ R]]; auto.
  split; [|reflexivity]. repeat split; auto.
  exists []. split; [now rewrite app_nil_r|constructor].
Qed.

Lemma degraded_session_sends_nothing_witness :
  session "localhost" [Settle 0 TimedOut] = Some (world_of probe_timed_out) /\
  run (world_of probe_timed_out) browsing
    = Some (world_of (run (world_of probe_timed_out) browsing)) /\
  requests (trace (world_of (run (world_of probe_timed_out) browsing)))
    = requests (trace (world_of probe_timed_out)).
Proof.
  split; [reflexivity|]. split; [vm_compute; reflexivity|].
  apply (degraded_session_sends_nothing "localhost" [Settle 0 TimedOut]
           (world_of probe_timed_out) browsing
           (world_of (run (world_of probe_timed_out) browsing))).
  - reflexivity.
  - reflexivity.
  - constructor.
  - vm_compute; reflexivity.
Defined.

(** X2. A response whose body is not JSON, whatever its status, is handled like a
    failed connection: the fallback is stored, the flag is set to false, the
    loading flag is cleared, and the SyntaxError is logged, not thrown. *)
Theorem unparsable_body_is_a_failure :
  forall hostname es w n k url ms c status,
    session hostname es = Some w ->
    task_at n w = Some (k, TFetch url ms c) ->
    exists w1 w2,
      step w (Settle n (Responded (mkResponse status BodyInvalid))) = Some w1 /\
      step w (Settle n ConnectionFailed) = Some w2 /\
      st w1 = st w2 /\
      loaded k (st w1) = fallback_of k /\
      isApiAvailable (st w1) = false /\
      loading_flag k (st w1) = false /\
      trace w1 = trace w ++ map Called (failure_calls k SyntaxError).
Proof.
  intros hostname es w n k url ms c status Hs Ht.
  pose proof (session_tasks_ok _ _ _ Hs) as Hok.
  destruct (settle_fetch _ _ _ _ _ _ Hok Ht) as [_ [_ [rest [_ Hstep]]]].
  exists (performs (settled_calls k (Responded (mkResponse status BodyInvalid)))
            (with_pending rest w)),
         (performs (settled_calls k ConnectionFailed) (with_pending rest w)).
  split; [apply Hstep|]. split; [apply Hstep|].
  rewrite !performs_st, performs_trace. cbn [settled_calls body].
  rewrite !failure_state. simpl st. simpl trace.
  repeat split; destruct k; reflexivity.
Qed.

Lemma unparsable_body_is_a_failure_witness :
  session "localhost" [Click tab_user] = Some (world_of profile_opened) /\
  exists w1 w2,
    step (world_of profile_opened)
      (Settle 1 (Responded (mkResponse 500 BodyInvalid))) = Some w1 /\
    step (world_of profile_opened) (Settle 1 ConnectionFailed) = Some w2 /\
    st w1 = st w2 /\
    userData (st w1) = user_value FALLBACK_DATA.user /\
    isApiAvailable (st w1) = false /\
    userLoading (st w1) = false /\
    trace w1 = trace (world_of profile_opened)
               ++ map Called (failure_calls Profile SyntaxError).
Proof.
  split; [reflexivity|].
  eapply (unparsable_body_is_a_failure "localhost" [Click tab_user]
            (world_of profile_opened) 1 Profile "/api/user" 3000 _ 500).
  - reflexivity.
  - reflexivity.
Defined.

(** [includes] finds a needle exactly when the string has it as a substring. *)
Lemma prefix_split n s :
  String.prefix n s = true <-> exists post, s = String.append n post.
Proof.
  revert s. induction n as [|a n IH]; intros s.
  - split; [intros _; exists s; reflexivity|]. destruct s; auto.
  - destruct s as [|b s]; simpl.
    + split; [discriminate|]. intros [post H]. discriminate.
    + destruct (Ascii.ascii_dec a b) as [->|N].
      * rewrite IH. split; intros [post H]; exists post; congruence.
      * split; [discriminate|]. intros [post H]. congruence.
Qed.

Lemma includes_split s n :
  includes s n = true <->
  exists pre post, s = String.append pre (String.append n post).
Proof.
  induction s as [|a s IH]; cbn [includes].
  - destruct (String.prefix n "") eqn:P.
    + apply prefix_split in P. destruct P as [post P].
      split; [intros _; exists "", post; exact P|reflexivity].
    + split; [discriminate|]. intros [pre [post H]].
      destruct pre; simpl in H.
      * assert (String.prefix n "" = true) by (apply prefix_split; eauto).
        congruence.
      * discriminate.
  - destruct (String.prefix n (String a s)) eqn:P.
    + apply prefix_split in P. destruct P as [post P].
      split; [intros _; exists "", post; exact P|reflexivity].
    + rewrite IH. split.
      * intros [pre [post H]]. exists (String a pre), post. simpl. now rewrite H.
      * intros [pre [post H]]. destruct pre as [|b pre]; simpl in H.
        -- assert (String.prefix n (String a s) = true)
             by (apply prefix_split; eauto).
           congruence.
        -- exists pre, post. congruence.
Qed.

(** X3. The mount effect takes a host for a static one exactly when its name
    contains "netlify.app" or "staticblitz.com" anywhere, not only at its
    end. *)
Theorem static_host_is_a_substring_test :
  forall hostname,
    static_host hostname = true <->
    (exists pre post,
        hostname = String.append pre (String.append "netlify.app" post)) \/
    (exists pre post,
        hostname = String.append pre (String.append "staticblitz.com" post)).
Proof.
  intros hostname. unfold static_host.
  rewrite orb_true_iff, !includes_split. reflexivity.
Qed.

(** ** What settling a load leaves alone *)

Lemma requests_performs cs w :
  requests (trace (performs cs w)) = requests (trace w).
Proof.
  rewrite performs_trace, requests_app, requests_calls. apply app_nil_r.
Qed.

(** X4. A load that settles (its request is answered, fails or times out, or its
    delay ends) is not retried and starts nothing: its suspension is removed,
    none is added, no request is sent; the active tab, the static-hosting
    mark, and the value and loading flag of the other resources are left as
    they are. *)
Theorem settled_load_is_not_retried :
  forall hostname es w n k t e w',
    session hostname es = Some w ->
    task_at n w = Some (k, t) ->
    (e = TimerFired n \/ exists o, e = Settle n o) ->
    step w e = Some w' ->
    (exists rest, take_task n (pending w) = Some ((k, t), rest) /\ pending w' = rest) /\
    next_id w' = next_id w /\
    requests (trace w') = requests (trace w) /\
    activeTab (st w') = activeTab (st w) /\
    isNetlify (st w') = isNetlify (st w) /\
    forall k', k' <> k ->
      loaded k' (st w') = loaded k' (st w) /\
      loading_flag k' (st w') = loading_flag k' (st w).
Proof.
  intros hostname es w n k t e w' Hs Ht He Hstep.
  pose proof (session_tasks_ok _ _ _ Hs) as Hok.
  destruct t as [url ms c|ms c].
  - destruct (settle_fetch _ _ _ _ _ _ Hok Ht) as [_ [_ [rest [T Hsettle]]]].
    destruct He as [->|[o ->]].
    + simpl in Hstep. rewrite T in Hstep. discriminate.
    + assert (Ew : w' = performs (settled_calls k o) (with_pending rest w))
        by (rewrite Hsettle in Hstep; congruence).
      rewrite Ew.
      rewrite performs_pending, performs_next_id, requests_performs, performs_st.
      destruct (settled_calls_frame k o (st w)) as (Ea & En & _ & Hf).
      repeat split; eauto; apply Hf; assumption.
  - destruct (fire_timer _ _ _ _ _ Hok Ht) as [_ [_ [rest [T Hfire]]]].
    destruct He as [->|[o ->]].
    + assert (Ew : w' = performs (delayed_calls k) (with_pending rest w))
        by (rewrite Hfire in Hstep; congruence).
      rewrite Ew.
      rewrite performs_pending, performs_next_id, requests_performs, performs_st.
      destruct (delayed_calls_frame k (st w)) as (Ea & En & _ & _ & Hf).
      repeat split; eauto; apply Hf; assumption.
    + simpl in Hstep. rewrite T in Hstep. discriminate.
Qed.

Lemma settled_load_is_not_retried_witness :
  session "localhost" [Click tab_user] = Some (world_of profile_opened) /\
  step (world_of profile_opened) (Settle 1 TimedOut)
    = Some (world_of (step (world_of profile_opened) (Settle 1 TimedOut))) /\
  requests (trace (world_of (step (world_of profile_opened) (Settle 1 TimedOut))))
    = requests (trace (world_of profile_opened)) /\
  activeTab (st (world_of (step (world_of profile_opened) (Settle 1 TimedOut))))
    = tab_user.
Proof.
  split; [reflexivity|]. split; [vm_compute; reflexivity|].
  pose proof (fun c =>
    settled_load_is_not_retried "localhost" [Click tab_user]
      (world_of profile_opened) 1 Profile (TFetch "/api/user" 3000 c)
      (Settle 1 TimedOut)
      (world_of (step (world_of profile_opened) (Settle 1 TimedOut)))) as H.
  edestruct H as (_ & _ & R & A & _).
  - reflexivity.
  - reflexivity.
  - right. exists TimedOut. reflexivity.
  - vm_compute; reflexivity.
  - split; [exact R|]. rewrite A. reflexivity.
Defined.

(** ** Loading flags and pending loads *)

Lemma take_task_owned k n l t rest :
  take_task n l = Some (t, rest) ->
  List.length (owned_by k l) =
  ((if Resource_eqb (fst t) k then 1 else 0) + List.length (owned_by k rest))%nat.
Proof.
  revert t rest. induction l as [|[m x] l IH]; intros t rest H; simpl in H.
  - discriminate.
  - destruct (Nat.eqb m n).
    + inversion H; subst. unfold owned_by. simpl.
      destruct (Resource_eqb (fst t) k); reflexivity.
    + destruct (take_task n l) as [[t' rest']|] eqn:T; [|discriminate].
      inversion H; subst. specialize (IH _ _ eq_refl).
      unfold owned_by in *. simpl.
      destruct (Resource_eqb (fst x) k); simpl; lia.
Qed.

Lemma Resource_eqb_eq a b : Resource_eqb a b = true <-> a = b.
Proof. destruct a, b; simpl; split; congruence. Qed.

Lemma pending_loads_suspend k k0 t e w :
  pending_loads k (suspend k0 t e w) =
  (pending_loads k w + (if Resource_eqb k0 k then 1 else 0))%nat.
Proof.
  unfold pending_loads, owned_by. simpl. rewrite filter_app, length_app. simpl.
  destruct (Resource_eqb k0 k); reflexivity.
Qed.

(** The invariant behind [spinners_justified], uniform in the resource. *)
Lemma flags_justified_transition w e w' :
  tasks_ok w ->
  (pending_loads Greeting w = (if loading (st w) then 1 else 0)%nat /\
   forall k, loading_flag k (st w) = true -> (0 < pending_loads k w)%nat) ->
  transition w e w' ->
  pending_loads Greeting w' = (if loading (st w') then 1 else 0)%nat /\
  forall k, loading_flag k (st w') = true -> (0 < pending_loads k w')%nat.
Proof.
  intros _ [G F] T.
  destruct T as [t E|E|t w' Ht E C|n o k0 url ms c rest T Hu Hms|n k0 ms c rest T Hk Hms].
  - auto.
  - split; [exact G|]. intros k. specialize (F k). destruct k; exact F.
  - assert (F0 : forall k, loading_flag k (st (perform (setActiveTab t) w)) = true ->
                           (0 < pending_loads k (perform (setActiveTab t) w))%nat).
    { intros k. specialize (F k). destruct k; exact F. }
    assert (Hk0 : tab_resource t <> Greeting) by (destruct t; discriminate).
    destruct C as [_|e _|_ _|c _ _ _].
    + split; [exact G|exact F0].
    + split; [exact G|exact F0].
    + split.
      * rewrite pending_loads_suspend.
        destruct (Resource_eqb (tab_resource t) Greeting) eqn:R;
          [apply Resource_eqb_eq in R; congruence|].
        rewrite Nat.add_0_r. destruct t; try congruence; exact G.
      * intros k Hk. rewrite pending_loads_suspend.
        destruct (Resource_eqb (tab_resource t) k) eqn:R; [lia|].
        rewrite Nat.add_0_r. apply (F0 k).
        destruct t, k; simpl in *; congruence.
    + split.
      * rewrite pending_loads_suspend.
        destruct (Resource_eqb (tab_resource t) Greeting) eqn:R;
          [apply Resource_eqb_eq in R; congruence|].
        rewrite Nat.add_0_r. destruct t; try congruence; exact G.
      * intros k Hk. rewrite pending_loads_suspend.
        destruct (Resource_eqb (tab_resource t) k) eqn:R; [lia|].
        rewrite Nat.add_0_r. apply (F0 k).
        destruct t, k; simpl in *; congruence.
  - destruct (settled_calls_frame k0 o (st w)) as (_ & _ & Hc & Hf).
    unfold pending_loads in *. rewrite performs_st, performs_pending.
    cbn [st pending with_pending].
    split.
    + pose proof (take_task_owned Greeting _ _ _ _ T) as N. simpl in N.
      destruct k0.
      * simpl in Hc, N. rewrite Hc. rewrite N in G.
        destruct (loading (st w)); lia.
      * destruct (Hf Greeting ltac:(discriminate)) as [_ L]. simpl in L, N.
        rewrite L. lia.
      * destruct (Hf Greeting ltac:(discriminate)) as [_ L]. simpl in L, N.
        rewrite L. lia.
    + intros k Hk.
      pose proof (take_task_owned k _ _ _ _ T) as N. simpl in N.
      destruct (Resource_eqb k0 k) eqn:R.
      * apply Resource_eqb_eq in R. subst k0. congruence.
      * assert (Hne : k <> k0)
          by (intros ->; destruct k0; discriminate).
        destruct (Hf k Hne) as [_ L]. rewrite L in Hk.
        specialize (F k Hk). lia.
  - destruct (delayed_calls_frame k0 (st w)) as (_ & _ & _ & Hc & Hf).
    unfold pending_loads in *. rewrite performs_st, performs_pending.
    cbn [st pending with_pending].
    split.
    + pose proof (take_task_owned Greeting _ _ _ _ T) as N. simpl in N.
      destruct k0; [congruence| |]; simpl in N; rewrite <- N; exact G.
    + intros k Hk'.
      pose proof (take_task_owned k _ _ _ _ T) as N. simpl in N.
      destruct (Resource_eqb k0 k) eqn:R.
      * apply Resource_eqb_eq in R. subst k0. congruence.
      * assert (Hne : k <> k0)
          by (intros ->; destruct k0; discriminate).
        destruct (Hf k Hne) as [_ L]. rewrite L in Hk'.
        specialize (F k Hk'). lia.
Qed.

(** X5. In every session a loading flag is raised only while a load of its
    resource is pending, so a spinner never outlives the loads that raised
    it; the greeting's flag is raised exactly while the probe is pending. *)
Theorem loading_flags_are_justified :
  forall hostname es w,
    session hostname es = Some w ->
    spinners_justified w.
Proof.
  intros hostname es w H.
  destruct (session_invariant
              (fun w => pending_loads Greeting w = (if loading (st w) then 1 else 0)%nat /\
                        forall k, loading_flag k (st w) = true ->
                                  (0 < pending_loads k w)%nat) hostname)
    with (es := es) (w := w) as [_ [G F]]; auto.
  - intros w0 M. destruct (static_host hostname) eqn:S.
    + rewrite (mount_static _ S) in M. inversion M; subst.
      split; [reflexivity|]. intros k Hk. destruct k; discriminate.
    + destruct (mount_probe _ S) as [c [E _]]. rewrite E in M.
      inversion M; subst. split; [reflexivity|].
      intros k Hk. destruct k; try discriminate. unfold pending_loads. simpl. lia.
  - apply flags_justified_transition.
  - unfold spinners_justified, pending_for. split; [exact G|].
    split; intros L.
    + specialize (F Profile L). destruct (pending_loads Profile w); [lia|reflexivity].
    + specialize (F Catalog L). destruct (pending_loads Catalog w); [lia|reflexivity].
Qed.

Lemma loading_flags_are_justified_witness :
  session "localhost" [Click tab_user] = Some (world_of profile_opened) /\
  spinners_justified (world_of profile_opened).
Proof.
  split; [reflexivity|].
  apply (loading_flags_are_justified "localhost" [Click tab_user]).
  reflexivity.
Defined.

(** ** What a session sends and logs *)

Lemma calls_started_by_loader cs : Forall started_by_loader (map Called cs).
Proof. induction cs; simpl; constructor; simpl; auto. Qed.

Lemma started_by_loader_transition w e w' :
  tasks_ok w ->
  Forall started_by_loader (trace w) ->
  transition w e w' ->
  Forall started_by_loader (trace w').
Proof.
  intros _ F T.
  destruct T as [t E|E|t w' Ht E C|n o k url ms c rest T Hu Hms|n k ms c rest T Hk Hms].
  - exact F.
  - simpl. apply Forall_app. split; [exact F|]. repeat constructor.
  - destruct C as [_|e _|_ _|c _ _ _]; simpl;
      repeat (apply Forall_app; split); auto; repeat constructor.
    simpl. eauto.
  - rewrite performs_trace. apply Forall_app. split; [exact F|].
    apply calls_started_by_loader.
  - rewrite performs_trace. apply Forall_app. split; [exact F|].
    apply calls_started_by_loader.
Qed.

(** X6. Every request a session sends goes to the URL of one of the three
    resources and is bounded by 3000 ms, and every timer a session starts is
    the 1000 ms delay. *)
Theorem only_loader_requests_and_timers :
  forall hostname es w,
    session hostname es = Some w ->
    Forall started_by_loader (trace w).
Proof.
  intros hostname es w H.
  destruct (session_invariant (fun w => Forall started_by_loader (trace w)) hostname)
    with (es := es) (w := w) as [_ F]; auto.
  - intros w0 M. destruct (static_host hostname) eqn:S.
    + rewrite (mount_static _ S) in M. inversion M; subst.
      repeat constructor.
    + destruct (mount_probe _ S) as [c [E _]]. rewrite E in M.
      inversion M; subst. simpl. repeat constructor. exists Greeting. reflexivity.
  - apply started_by_loader_transition.
Qed.

Lemma only_loader_requests_and_timers_witness :
  session "localhost" [Click tab_user] = Some (world_of profile_opened) /\
  Forall started_by_loader (trace (world_of profile_opened)).
Proof.
  split; [reflexivity|].
  apply (only_loader_requests_and_timers "localhost" [Click tab_user]).
  reflexivity.
Defined.

Lemma errors_logged_app a b :
  errors_logged (a ++ b) = errors_logged a ++ errors_logged b.
Proof. apply filter_app. Qed.

Lemma errors_logged_kept a b : errors_logged a <> [] -> errors_logged (a ++ b) <> [].
Proof.
  rewrite errors_logged_app. destruct (errors_logged a); [congruence|discriminate].
Qed.

(** A settled request lowers the flag only on a path that logs the error. *)
Lemma settled_calls_log k o s :
  isApiAvailable (apply_calls (settled_calls k o) s) = false ->
  isApiAvailable s = false \/ errors_logged (map Called (settled_calls k o)) <> [].
Proof.
  destruct o as [[sta [v|]]| |]; destruct k; cbn [settled_calls body];
    try (intros _; right; discriminate);
    try (intros H; left; exact H);
    try discriminate.
  destruct (prop_message v) eqn:E.
  - discriminate.
  - intros _. right. discriminate.
  - now apply prop_message_modelled in E.
Qed.

Lemma degradation_logged_transition hostname w e w' :
  tasks_ok w ->
  degradation_logged hostname w ->
  transition w e w' ->
  degradation_logged hostname w'.
Proof.
  intros _ [N L] T. unfold degradation_logged.
  destruct T as [t E|E|t w' Ht E C|n o k url ms c rest T Hu Hms|n k ms c rest T Hk Hms].
  - auto.
  - split; [exact N|]. intros H. destruct (L H) as [S|X]; [auto|right].
    now apply errors_logged_kept.
  - assert (D0 : degradation_logged hostname (perform (setActiveTab t) w)).
    { split; [exact N|]. intros H. destruct (L H) as [S|X]; [auto|right].
      now apply errors_logged_kept. }
    destruct D0 as [N0 L0].
    destruct C as [_|e _|_ _|c _ _ _].
    + split; assumption.
    + split; [exact N0|]. intros H. destruct (L0 H) as [S|X]; [auto|right].
      now apply errors_logged_kept.
    + split; [destruct t; exact N|].
      intros H. assert (H0 : isApiAvailable (st (perform (setActiveTab t) w)) = false)
        by (destruct t; exact H).
      destruct (L0 H0) as [S|X]; [auto|right].
      simpl trace in X |- *. do 2 apply errors_logged_kept. exact X.
    + split; [destruct t; exact N|].
      intros H. assert (H0 : isApiAvailable (st (perform (setActiveTab t) w)) = false)
        by (destruct t; exact H).
      destruct (L0 H0) as [S|X]; [auto|right].
      simpl trace in X |- *. do 2 apply errors_logged_kept. exact X.
  - destruct (settled_calls_frame k o (st w)) as (_ & En & _).
    rewrite performs_st, performs_trace. cbn [st trace with_pending].
    split; [now rewrite En|].
    intros H. destruct (settled_calls_log _ _ _ H) as [H0|X].
    + destruct (L H0) as [S|X]; [auto|right]. now apply errors_logged_kept.
    + right. rewrite errors_logged_app.
      destruct (errors_logged (map Called (settled_calls k o))); [congruence|].
      intros A. apply app_eq_nil in A. destruct A. discriminate.
  - destruct (delayed_calls_frame k (st w)) as (_ & En & Ea & _).
    rewrite performs_st, performs_trace. cbn [st trace with_pending].
    split; [now rewrite En|].
    rewrite Ea. intros H. destruct (L H) as [S|X]; [auto|right].
    now apply errors_logged_kept.
Qed.

(** X7. In every session the static-hosting mark is set exactly on a static host,
    and on any other host the availability flag is false only after an error
    has been logged with [console.error]. *)
Theorem degradation_is_marked_or_logged :
  forall hostname es w,
    session hostname es = Some w ->
    isNetlify (st w) = static_host hostname /\
    (isApiAvailable (st w) = false ->
     static_host hostname = true \/ errors_logged (trace w) <> []).
Proof.
  intros hostname es w H.
  destruct (session_invariant (degradation_logged hostname) hostname)
    with (es := es) (w := w) as [_ D]; auto.
  - intros w0 M. unfold degradation_logged.
    destruct (static_host hostname) eqn:S.
    + rewrite (mount_static _ S) in M. inversion M; subst.
      split; [reflexivity|]. auto.
    + destruct (mount_probe _ S) as [c [E _]]. rewrite E in M.
      inversion M; subst. split; [reflexivity|]. discriminate.
  - apply degradation_logged_transition.
Qed.

Lemma degradation_is_marked_or_logged_witness :
  session "localhost" [Settle 0 TimedOut] = Some (world_of probe_timed_out) /\
  isNetlify (st (world_of probe_timed_out)) = static_host "localhost" /\
  (isApiAvailable (st (world_of probe_timed_out)) = false ->
   static_host "localhost" = true \/
   errors_logged (trace (world_of probe_timed_out)) <> []).
Proof.
  split; [reflexivity|].
  apply (degradation_is_marked_or_logged "localhost" [Settle 0 TimedOut]).
  reflexivity.
Defined.

(** ** Client and provider together *)

(** X8. With this provider, what the client stores for the profile and for the
    catalog is the same whether the request is answered or fails: the payload
    served is the fallback value. An answer leaves the availability flag as
    it was, a failure sets it to false. *)
Theorem provider_payload_equals_fallback :
  forall hostname es w n k url ms c req status,
    session hostname es = Some w ->
    task_at n w = Some (k, TFetch url ms c) ->
    k <> Greeting ->
    exists w1 w2,
      step w (Settle n (provider_answer k req status)) = Some w1 /\
      step w (Settle n TimedOut) = Some w2 /\
      loaded k (st w1) = fallback_of k /\
      loaded k (st w2) = loaded k (st w1) /\
      isApiAvailable (st w1) = isApiAvailable (st w) /\
      isApiAvailable (st w2) = false.
Proof.
  intros hostname es w n k url ms c req status Hs Ht Hk.
  pose proof (session_tasks_ok _ _ _ Hs) as Hok.
  destruct (settle_fetch _ _ _ _ _ _ Hok Ht) as [_ [_ [rest [_ Hstep]]]].
  exists (performs (settled_calls k (provider_answer k req status)) (with_pending rest w)),
         (performs (settled_calls k TimedOut) (with_pending rest w)).
  split; [apply Hstep|]. split; [apply Hstep|].
  rewrite !performs_st.
  destruct k; [congruence| |]; repeat split.
Qed.

Lemma provider_payload_equals_fallback_witness :
  session "localhost" [Click tab_user] = Some (world_of profile_opened) /\
  exists w1 w2,
    step (world_of profile_opened)
      (Settle 1 (provider_answer Profile (Server.mkRequest "" [] "") 200)) = Some w1 /\
    step (world_of profile_opened) (Settle 1 TimedOut) = Some w2 /\
    userData (st w1) = user_value FALLBACK_DATA.user /\
    userData (st w2) = userData (st w1) /\
    isApiAvailable (st w1) = isApiAvailable (st (world_of profile_opened)) /\
    isApiAvailable (st w2) = false.
Proof.
  split; [reflexivity|].
  eapply (provider_payload_equals_fallback "localhost" [Click tab_user]
            (world_of profile_opened) 1 Profile "/api/user" 3000 _
            (Server.mkRequest "" [] "") 200).
  - reflexivity.
  - reflexivity.
  - discriminate.
Defined.

(** ** The view *)

Lemma map_from_Forall {A : Type} (f : value -> nat -> Completion A) items :
  Forall (fun item => forall i, exists a, f item i = Normal a) items ->
  forall i, exists l, map_from i f items = Normal l.
Proof.
  induction 1 as [|item items Hi _ IH]; intros i; simpl.
  - eauto.
  - destruct (Hi i) as [a ->]. destruct (IH (S i)) as [l ->]. eauto.
Qed.

Lemma get_member_truthy name v :
  truthy v = true -> exists m, get_member name v = Normal m.
Proof.
  destruct v as [ | | | | | |members]; simpl; try discriminate; eauto.
  destruct (own_member name members); eauto.
Qed.

Lemma profile_card_typed u : exists n, profile_card (user_value u) = Normal n.
Proof.
  unfold profile_card. cbn.
  destruct (map_from_Forall skill_badge (map JStr (skills u))) with (i := 0%nat)
    as [l E].
  - apply Forall_forall. intros item _ i. unfold skill_badge. eauto.
  - rewrite E. eexists. reflexivity.
Qed.

Lemma toFixed2_typed z :
  Z.abs z < 10 ^ 21 ->
  toFixed2 (JNum z) =
  Normal (String.append (NilZero.string_of_int (Z.to_int z)) ".00").
Proof.
  intros H. apply Z.ltb_lt in H. unfold toFixed2. now rewrite H.
Qed.

Lemma product_row_typed p i :
  Z.abs (price p) < 10 ^ 21 ->
  exists n, product_row (product_value p) i = Normal n.
Proof.
  intros H. unfold product_row.
  change (get_member "id" (product_value p)) with (Normal (JNum (id p))).
  change (get_member "name" (product_value p)) with (Normal (JStr (name p))).
  change (get_member "category" (product_value p))
    with (Normal (JStr (category p))).
  change (get_member "price" (product_value p)) with (Normal (JNum (price p))).
  change (get_member "inStock" (product_value p))
    with (Normal (JBool (inStock p))).
  cbn [and_then]. rewrite (toFixed2_typed _ H). cbn [and_then].
  eexists. reflexivity.
Qed.

Lemma products_table_typed ps :
  Forall (fun p => Z.abs (price p) < 10 ^ 21) ps ->
  exists n, products_table (products_value ps) = Normal n.
Proof.
  intros F. unfold products_table, products_value, js_map.
  destruct (map_from_Forall product_row (map product_value ps)) with (i := 0%nat)
    as [l E].
  - apply Forall_map. eapply Forall_impl; [|exact F].
    intros p Hp i. now apply product_row_typed.
  - rewrite E. simpl. eauto.
Qed.

(** The view of a state with typed data. *)
Lemma render_typed :
  forall s, typed_data s -> exists tree, render s = Normal tree.
Proof.
  intros s [Hu [ps [Hp F]]].
  assert (U : exists n, user_panel s = Normal n).
  { unfold user_panel. destruct (userLoading s); [simpl; eauto|].
    destruct Hu as [->|[u ->]]; [simpl; eauto|].
    change (truthy (user_value u)) with true. cbv iota.
    destruct (profile_card_typed u) as [n ->]. simpl. eauto. }
  assert (P : exists n, products_panel s = Normal n).
  { unfold products_panel. destruct (productsLoading s); [simpl; eauto|].
    rewrite Hp.
    change (length_gt_zero (products_value ps))
      with (Normal (A := bool)
              (0 <? Z.of_nat (List.length (map product_value ps)))).
    cbn [and_then].
    destruct (0 <? Z.of_nat (List.length (map product_value ps))).
    - destruct (products_table_typed ps F) as [n ->]. simpl. eauto.
    - simpl. eauto. }
  destruct U as [u U], P as [p P].
  unfold render, on_tab. rewrite U, P.
  destruct (activeTab s); simpl; eauto.
Qed.



Lemma profile_card_throws v :
  truthy v = true ->
  (forall items, get_member "skills" v <> Normal (JArr items)) ->
  profile_card v = Thrown TypeError.
Proof.
  intros Hv Hs. unfold profile_card.
  destruct (get_member_truthy "name" v Hv) as [m1 ->].
  destruct (get_member_truthy "email" v Hv) as [m2 ->].
  destruct (get_member_truthy "role" v Hv) as [m3 ->].
  destruct (get_member_truthy "department" v Hv) as [m4 ->].
  destruct (get_member_truthy "experience" v Hv) as [m5 ->].
  destruct (get_member_truthy "location" v Hv) as [m6 ->].
  destruct (get_member_truthy "projects" v Hv) as [m7 ->].
  destruct (get_member_truthy "skills" v Hv) as [m8 E]. rewrite E.
  cbn [and_then].
  destruct m8; try reflexivity.
  exfalso. eapply Hs. exact E.
Qed.

(** X10. A JSON answer to the profile request that is truthy but has no array
    under [skills] (an error object sent with a 404 or a 500, say) is stored
    as the profile; if the profile tab is the active one, evaluating the view
    in the resulting state throws a TypeError. *)
Theorem profile_without_skills_breaks_view :
  forall hostname es w n url ms c status v,
    session hostname es = Some w ->
    task_at n w = Some (Profile, TFetch url ms c) ->
    activeTab (st w) = tab_user ->
    truthy v = true ->
    (forall items, get_member "skills" v <> Normal (JArr items)) ->
    exists w',
      step w (Settle n (Responded (mkResponse status (BodyJson v)))) = Some w' /\
      userData (st w') = v /\
      userLoading (st w') = false /\
      render (st w') = Thrown TypeError.
Proof.
  intros hostname es w n url ms c status v Hs Ht Ha Hv Hsk.
  pose proof (session_tasks_ok _ _ _ Hs) as Hok.
  destruct (settle_fetch _ _ _ _ _ _ Hok Ht) as [_ [_ [rest [_ Hstep]]]].
  eexists. split; [apply Hstep|].
  rewrite performs_st. cbn [settled_calls body success_calls set_loaded set_loading_flag].
  split; [reflexivity|]. split; [reflexivity|].
  unfold render, on_tab, user_panel. simpl activeTab. simpl userLoading.
  simpl userData. rewrite Ha. cbn [Tab_eqb and_then]. rewrite Hv.
  rewrite (profile_card_throws v Hv Hsk). reflexivity.
Qed.

Lemma profile_without_skills_breaks_view_witness :
  session "localhost" [Click tab_user] = Some (world_of profile_opened) /\
  exists w',
    step (world_of profile_opened)
      (Settle 1 (Responded (mkResponse 404 (BodyJson (JObj [("error", JStr "Not Found")])))))
      = Some w' /\
    userData (st w') = JObj [("error", JStr "Not Found")] /\
    userLoading (st w') = false /\
    render (st w') = Thrown TypeError.
Proof.
  split; [reflexivity|].
  eapply (profile_without_skills_breaks_view "localhost" [Click tab_user]
            (world_of profile_opened) 1 "/api/user" 3000 _ 404
            (JObj [("error", JStr "Not Found")])).
  - reflexivity.
  - reflexivity.
  - reflexivity.
  - reflexivity.
  - intros items. discriminate.
Defined.

(** X11. A successful answer to the catalog request with an empty list is stored,
    shown as "Failed to load products data", and not taken for a cached
    catalog: the loader's test is still false. *)
Theorem empty_catalog_is_shown_as_failure :
  forall hostname es w n url ms c status,
    session hostname es = Some w ->
    task_at n w = Some (Catalog, TFetch url ms c) ->
    exists w',
      step w (Settle n (Responded (mkResponse status (BodyJson (JArr []))))) = Some w' /\
      products (st w') = JArr [] /\
      isApiAvailable (st w') = isApiAvailable (st w) /\
      products_panel (st w') =
        Normal (Element "div" []
                  [ Element "h2" [className "text-xl font-semibold mb-4"]
                      [Text "Products Array Data"];
                    failed_paragraph "Failed to load products data" ]) /\
      cache_test Catalog (st w') = Normal false.
Proof.
  intros hostname es w n url ms c status Hs Ht.
  pose proof (session_tasks_ok _ _ _ Hs) as Hok.
  destruct (settle_fetch _ _ _ _ _ _ Hok Ht) as [_ [_ [rest [_ Hstep]]]].
  eexists. split; [apply Hstep|].
  rewrite performs_st. repeat split.
Qed.

Lemma empty_catalog_is_shown_as_failure_witness :
  session "localhost" [Click tab_products]
    = Some (world_of (session "localhost" [Click tab_products])) /\
  exists w',
    step (world_of (session "localhost" [Click tab_products]))
      (Settle 1 (Responded (mkResponse 200 (BodyJson (JArr []))))) = Some w' /\
    products (st w') = JArr [] /\
    isApiAvailable (st w')
      = isApiAvailable (st (world_of (session "localhost" [Click tab_products]))) /\
    products_panel (st w') =
      Normal (Element "div" []
                [ Element "h2" [className "text-xl font-semibold mb-4"]
                    [Text "Products Array Data"];
                  failed_paragraph "Failed to load products data" ]) /\
    cache_test Catalog (st w') = Normal false.
Proof.
  split; [reflexivity|].
  eapply (empty_catalog_is_shown_as_failure "localhost" [Click tab_products]
            (world_of (session "localhost" [Click tab_products]))
            1 "/api/products" 3000 _ 200).
  - reflexivity.
  - reflexivity.
Defined.

Lemma typed_data_same s s' :
  userData s' = userData s ->
  products s' = products s ->
  typed_data s -> typed_data s'.
Proof. unfold typed_data. intros -> ->. auto. Qed.

Lemma served_prices_typed :
  Forall (fun p => Z.abs (price p) < 10 ^ 21) FALLBACK_DATA.products.
Proof. repeat constructor. Qed.

(** Settling a request keeps the stored data typed when the answer, if any,
    is the provider's payload for the resource. *)
Lemma typed_data_settled k o s req :
  typed_data s ->
  (forall r, o = Responded r ->
             body r = BodyJson (Server.payload_of (provider_reply k req))) ->
  typed_data (apply_calls (settled_calls k o) s).
Proof.
  intros [Hu [ps [Hp F]]] Hr.
  destruct (settled_calls_frame k o s) as (_ & _ & _ & Hf).
  destruct k.
  - destruct (Hf Profile ltac:(discriminate)) as [Eu _].
    destruct (Hf Catalog ltac:(discriminate)) as [Ep _].
    simpl in Eu, Ep. split.
    + rewrite Eu. exact Hu.
    + exists ps. rewrite Ep. auto.
  - destruct (Hf Catalog ltac:(discriminate)) as [Ep _]. simpl in Ep.
    split; [|exists ps; rewrite Ep; auto].
    right. destruct o as [[sta b]| |].
    + specialize (Hr _ eq_refl). simpl in Hr. subst b. eexists. reflexivity.
    + exists FALLBACK_DATA.user. reflexivity.
    + exists FALLBACK_DATA.user. reflexivity.
  - destruct (Hf Profile ltac:(discriminate)) as [Eu _]. simpl in Eu.
    split; [rewrite Eu; exact Hu|].
    exists FALLBACK_DATA.products. split; [|exact served_prices_typed].
    destruct o as [[sta b]| |].
    + specialize (Hr _ eq_refl). simpl in Hr. subst b. reflexivity.
    + reflexivity.
    + reflexivity.
Qed.

Lemma typed_data_delayed k s :
  typed_data s -> typed_data (apply_calls (delayed_calls k) s).
Proof.
  intros [Hu [ps [Hp F]]]. destruct k; simpl.
  - split; [exact Hu|exists ps; auto].
  - split; [right; exists FALLBACK_DATA.user; reflexivity|exists ps; auto].
  - split; [exact Hu|].
    exists FALLBACK_DATA.products. split; [reflexivity|exact served_prices_typed].
Qed.

Lemma typed_data_step w e w' :
  tasks_ok w ->
  typed_data (st w) ->
  match e with
  | Settle n (Responded r) =>
      exists k t req,
        task_at n w = Some (k, t) /\
        body r = BodyJson (Server.payload_of (provider_reply k req))
  | _ => True
  end ->
  step w e = Some w' ->
  typed_data (st w').
Proof.
  intros Hok Ht Hserved Hstep.
  pose proof (step_transition _ _ _ Hok Hstep) as T.
  destruct T as [t E|E|t w' Hne E C|n o k url ms c rest T Hu Hms|n k ms c rest T Hk Hms].
  - exact Ht.
  - exact Ht.
  - destruct C; try exact Ht; destruct t; exact Ht.
  - rewrite performs_st. cbn [st with_pending].
    destruct o as [r| |].
    + destruct Hserved as (k' & t' & req & Hat & Hb).
      unfold task_at in Hat. rewrite T in Hat. inversion Hat; subst.
      apply (typed_data_settled _ _ _ req Ht).
      intros r' Hr'. inversion Hr'; subst. exact Hb.
    + apply (typed_data_settled _ _ _ (Server.mkRequest "" [] "") Ht).
      discriminate.
    + apply (typed_data_settled _ _ _ (Server.mkRequest "" [] "") Ht).
      discriminate.
  - rewrite performs_st. cbn [st with_pending].
    now apply typed_data_delayed.
Qed.

Lemma typed_data_run es :
  forall w w',
    tasks_ok w ->
    typed_data (st w) ->
    served_by_provider w es ->
    run w es = Some w' ->
    typed_data (st w').
Proof.
  induction es as [|e es IH]; intros w w' Hok Ht Hs Hr; simpl in Hr.
  - inversion Hr; subst. exact Ht.
  - destruct (step w e) as [w1|] eqn:E; [|discriminate].
    simpl in Hs. rewrite E in Hs. destruct Hs as [He Hrest].
    apply (IH w1 w'); auto.
    + eapply transition_tasks_ok; eauto using step_transition.
    + eapply typed_data_step; eauto.
Qed.

Lemma typed_data_mount hostname w :
  mount hostname = Some w -> typed_data (st w).
Proof.
  intros M. destruct (static_host hostname) eqn:S.
  - rewrite (mount_static _ S) in M. inversion M; subst.
    split; [left; reflexivity|]. exists []. split; [reflexivity|constructor].
  - destruct (mount_probe _ S) as [c [E _]]. rewrite E in M.
    inversion M; subst.
    split; [left; reflexivity|]. exists []. split; [reflexivity|constructor].
Qed.

(** X12. Against this provider the view never throws: in a session whose every
    answered request carries the payload of the provider's route for that
    resource (requests may also fail or time out), [App] returns a tree in
    every state, on every tab. *)
Theorem provider_sessions_always_render :
  forall hostname es w,
    session hostname es = Some w ->
    served_by_provider (world_of (mount hostname)) es ->
    typed_data (st w) /\ exists tree, render (st w) = Normal tree.
Proof.
  intros hostname es w Hs Hp. unfold session in Hs.
  destruct (mount hostname) as [w0|] eqn:M; [|discriminate].
  simpl in Hp.
  assert (T : typed_data (st w)).
  { apply (typed_data_run es w0 w); auto.
    - eapply mount_tasks_ok; eauto.
    - eapply typed_data_mount; eauto. }
  split; [exact T|]. now apply render_typed.
Qed.

Lemma provider_sessions_always_render_witness :
  session "localhost" served_session
    = Some (world_of (session "localhost" served_session)) /\
  served_by_provider (world_of (mount "localhost")) served_session /\
  typed_data (st (world_of (session "localhost" served_session))) /\
  exists tree, render (st (world_of (session "localhost" served_session))) = Normal tree.
Proof.
  assert (S : served_by_provider (world_of (mount "localhost")) served_session).
  { split.
    - exists Greeting. eexists. exists (Server.mkRequest "" [] "").
      split; reflexivity.
    - split; [exact I|]. split; [|exact I].
      exists Profile. eexists. exists (Server.mkRequest "" [] "").
      split; reflexivity. }
  split; [vm_compute; reflexivity|]. split; [exact S|].
  apply (provider_sessions_always_render "localhost" served_session).
  - vm_compute; reflexivity.
  - exact S.
Defined.

(** ** A stored resource stays as it is *)

Lemma cache_test_loaded k s s' :
  loaded k s' = loaded k s -> cache_test k s' = cache_test k s.
Proof. destruct k; simpl; intros H; now rewrite ?H. Qed.

Lemma pending_loads_take k n w t rest :
  take_task n (pending w) = Some (t, rest) ->
  pending_loads k w = 0%nat ->
  fst t <> k /\ List.length (owned_by k rest) = 0%nat.
Proof.
  intros T H. unfold pending_loads in H.
  rewrite (take_task_owned k _ _ _ _ T) in H.
  destruct (Resource_eqb (fst t) k) eqn:R; [lia|].
  split; [|lia]. intros E. apply Resource_eqb_eq in E. congruence.
Qed.

Lemma at_rest_perform k w1 w c :
  loaded k (apply_call c (st w)) = loaded k (st w) ->
  at_rest k w1 w -> at_rest k w1 (perform c w).
Proof.
  intros E (L & P & R). unfold at_rest. split; [|split].
  - simpl. now rewrite E.
  - exact P.
  - simpl trace. rewrite requests_to_app. unfold requests_to at 2. simpl.
    now rewrite Nat.add_0_r.
Qed.

Lemma at_rest_reject k w1 w e :
  at_rest k w1 w -> at_rest k w1 (reject e w).
Proof.
  intros (L & P & R). unfold at_rest. split; [|split].
  - exact L.
  - exact P.
  - simpl trace. rewrite requests_to_app. unfold requests_to at 2. simpl.
    now rewrite Nat.add_0_r.
Qed.

Lemma at_rest_suspend k k0 w1 w t e :
  k0 <> k ->
  (e = TimerStarted 1000 \/ e = Requested (url_of k0) 3000) ->
  at_rest k w1 w -> at_rest k w1 (suspend k0 t e w).
Proof.
  intros Hne He (L & P & R). unfold at_rest. split; [|split].
  - exact L.
  - rewrite pending_loads_suspend.
    destruct (Resource_eqb k0 k) eqn:Q;
      [apply Resource_eqb_eq in Q; congruence|lia].
  - simpl trace. rewrite requests_to_app, R.
    destruct He as [->| ->]; unfold requests_to at 2; simpl.
    + lia.
    + destruct k0, k; simpl; try congruence; lia.
Qed.

Lemma at_rest_transition k w1 w e w' :
  (k = Greeting \/ cache_test k (st w1) = Normal true) ->
  tasks_ok w -> at_rest k w1 w -> transition w e w' -> at_rest k w1 w'.
Proof.
  intros Hc _ A T.
  destruct T as [t E|E|t w' Ht E C|n o k0 url ms c rest T Hu Hms|n k0 ms c rest T Hk Hms].
  - exact A.
  - apply at_rest_perform; [destruct k; reflexivity|exact A].
  - assert (A0 : at_rest k w1 (perform (setActiveTab t) w))
      by (apply at_rest_perform; [destruct k; reflexivity|exact A]).
    destruct (Resource_eqb (tab_resource t) k) eqn:Q.
    + apply Resource_eqb_eq in Q.
      assert (Hcached : cache_test k (st (perform (setActiveTab t) w)) = Normal true).
      { destruct Hc as [->|Hc]; [destruct t; discriminate|].
        rewrite <- Hc. apply cache_test_loaded. apply A0. }
      rewrite Q in C. destruct C as [_|e He|Hf _|c Hf _ _]; congruence.
    + assert (Hne : tab_resource t <> k)
        by (intros Q'; apply Resource_eqb_eq in Q'; congruence).
      destruct C as [_|e _|_ _|c _ _ _].
      * exact A0.
      * now apply at_rest_reject.
      * apply at_rest_suspend; auto. unfold started.
        apply at_rest_perform; [|exact A0].
        destruct t, k; simpl in *; congruence.
      * apply at_rest_suspend; auto. unfold started.
        apply at_rest_perform; [|exact A0].
        destruct t, k; simpl in *; congruence.
  - destruct A as (L & P & R).
    destruct (pending_loads_take k _ _ _ _ T P) as [Hne Prest]. simpl in Hne.
    destruct (settled_calls_frame k0 o (st w)) as (_ & _ & _ & Hf).
    destruct (Hf k ltac:(congruence)) as [El _].
    unfold at_rest, pending_loads.
    rewrite performs_st, performs_pending, performs_trace.
    cbn [st pending trace with_pending].
    rewrite requests_to_app, requests_to_calls, Nat.add_0_r.
    split; [now rewrite El|]. split; assumption.
  - destruct A as (L & P & R).
    destruct (pending_loads_take k _ _ _ _ T P) as [Hne Prest]. simpl in Hne.
    destruct (delayed_calls_frame k0 (st w)) as (_ & _ & _ & _ & Hf).
    destruct (Hf k ltac:(congruence)) as [El _].
    unfold at_rest, pending_loads.
    rewrite performs_st, performs_pending, performs_trace.
    cbn [st pending trace with_pending].
    rewrite requests_to_app, requests_to_calls, Nat.add_0_r.
    split; [now rewrite El|]. split; assumption.
Qed.

(** X13. Once a resource is stored and none of its loads is pending, it stays as
    it is for the rest of the session: whatever the user clicks and however
    the other loads settle, its value is not replaced and no further request
    for it is sent. (For the greeting no stored value is needed: its loader
    runs at mount only.) *)
Theorem stored_resource_is_final :
  forall hostname es1 w1 es2 w2 k,
    session hostname es1 = Some w1 ->
    (k = Greeting \/ cache_test k (st w1) = Normal true) ->
    pending_loads k w1 = 0%nat ->
    run w1 es2 = Some w2 ->
    loaded k (st w2) = loaded k (st w1) /\
    pending_loads k w2 = 0%nat /\
    requests_to (url_of k) (trace w2) = requests_to (url_of k) (trace w1).
Proof.
  intros hostname es1 w1 es2 w2 k Hs Hc Hp Hr.
  pose proof (session_tasks_ok _ _ _ Hs) as Hok.
  destruct (run_invariant (at_rest k w1)
              (fun w e w' => at_rest_transition k w1 w e w' Hc) es2 w1 w2 Hok)
    as [_ A]; auto.
  repeat split; auto.
Qed.

Lemma stored_resource_is_final_witness :
  session "demo.netlify.app" [Click tab_products; TimerFired 0; Click tab_welcome]
    = Some (world_of fallback_catalog_loaded) /\
  cache_test Catalog (st (world_of fallback_catalog_loaded)) = Normal true /\
  pending_loads Catalog (world_of fallback_catalog_loaded) = 0%nat /\
  run (world_of fallback_catalog_loaded) [Click tab_products; Click tab_user]
    = Some (world_of (run (world_of fallback_catalog_loaded)
                        [Click tab_products; Click tab_user])) /\
  products (st (world_of (run (world_of fallback_catalog_loaded)
                            [Click tab_products; Click tab_user])))
    = products (st (world_of fallback_catalog_loaded)).
Proof.
  split; [vm_compute; reflexivity|]. split; [vm_compute; reflexivity|].
  split; [vm_compute; reflexivity|]. split; [vm_compute; reflexivity|].
  apply (stored_resource_is_final "demo.netlify.app"
           [Click tab_products; TimerFired 0; Click tab_welcome]
           (world_of fallback_catalog_loaded)
           [Click tab_products; Click tab_user]
           (world_of (run (world_of fallback_catalog_loaded)
                        [Click tab_products; Click tab_user]))
           Catalog).
  - vm_compute; reflexivity.
  - right. vm_compute; reflexivity.
  - vm_compute; reflexivity.
  - vm_compute; reflexivity.
Defined.

(** ** What a click does *)

(** X14. A click on a tab makes it the active tab and never changes a
    stored value, the availability flag or the static-hosting mark. Either it
    starts nothing (no suspension is added and every loading flag is as it
    was), which is what a click on Welcome or on the active tab always does;
    or the tab is another one whose resource fails its cache test, and the
    click adds exactly one suspension, of that tab's resource, raises that
    resource's loading flag and leaves the flags of the other resources as
    they were. *)
Theorem click_changes_tab_and_own_loading :
  forall hostname es w t w',
    session hostname es = Some w ->
    step w (Click t) = Some w' ->
    activeTab (st w') = t /\
    isApiAvailable (st w') = isApiAvailable (st w) /\
    isNetlify (st w') = isNetlify (st w) /\
    (forall k, loaded k (st w') = loaded k (st w)) /\
    ((pending w' = pending w /\
      forall k, loading_flag k (st w') = loading_flag k (st w)) \/
     (t <> tab_welcome /\
      t <> activeTab (st w) /\
      cache_test (tab_resource t) (st w) = Normal false /\
      (exists task, pending w' = pending w ++ [(next_id w, (tab_resource t, task))]) /\
      loading_flag (tab_resource t) (st w') = true /\
      forall k, k <> tab_resource t ->
                loading_flag k (st w') = loading_flag k (st w))).
Proof.
  intros hostname es w t w' Hs Hstep.
  pose proof (session_tasks_ok _ _ _ Hs) as Hok.
  pose proof (step_transition _ _ _ Hok Hstep) as T.
  assert (Q : forall k, loaded k (st (perform (setActiveTab t) w)) = loaded k (st w))
    by (intros k; destruct k; reflexivity).
  assert (F : forall k, loading_flag k (st (perform (setActiveTab t) w))
                        = loading_flag k (st w))
    by (intros k; destruct k; reflexivity).
  inversion T as [t0 E|E|t0 w0 Ht E C| |]; subst.
  - split; [reflexivity|]. do 3 (split; [reflexivity|]). left. auto.
  - split; [reflexivity|]. do 2 (split; [reflexivity|]). split; [exact Q|].
    left. auto.
  - destruct C as [_|e _|Hc _|c Hc _ _].
    + split; [reflexivity|]. do 2 (split; [reflexivity|]). split; [exact Q|].
      left. auto.
    + split; [reflexivity|]. do 2 (split; [reflexivity|]). split; [exact Q|].
      left. auto.
    + split; [destruct t; reflexivity|]. split; [destruct t; reflexivity|].
      split; [destruct t; reflexivity|].
      split; [intros k; destruct t, k; reflexivity|].
      right. split; [exact Ht|]. split; [congruence|].
      split; [rewrite <- Hc; symmetry; apply cache_test_loaded, Q|].
      split; [eexists; reflexivity|].
      split; [destruct t; reflexivity|].
      intros k Hk. destruct t, k; simpl in *; congruence.
    + split; [destruct t; reflexivity|]. split; [destruct t; reflexivity|].
      split; [destruct t; reflexivity|].
      split; [intros k; destruct t, k; reflexivity|].
      right. split; [exact Ht|]. split; [congruence|].
      split; [rewrite <- Hc; symmetry; apply cache_test_loaded, Q|].
      split; [eexists; reflexivity|].
      split; [destruct t; reflexivity|].
      intros k Hk. destruct t, k; simpl in *; congruence.
Qed.

Lemma click_changes_tab_and_own_loading_witness :
  session "localhost" [] = Some (world_of (session "localhost" [])) /\
  step (world_of (session "localhost" [])) (Click tab_user)
    = Some (world_of profile_opened) /\
  activeTab (st (world_of profile_opened)) = tab_user /\
  isApiAvailable (st (world_of profile_opened))
    = isApiAvailable (st (world_of (session "localhost" []))) /\
  userLoading (st (world_of profile_opened)) = true /\
  List.length (pending (world_of profile_opened))
    = S (List.length (pending (world_of (session "localhost" [])))).
Proof.
  split; [reflexivity|]. split; [vm_compute; reflexivity|].
  destruct (click_changes_tab_and_own_loading "localhost" []
              (world_of (session "localhost" [])) tab_user
              (world_of profile_opened)) as (A & B & _).
  - reflexivity.
  - vm_compute; reflexivity.
  - split; [exact A|]. split; [exact B|]. split; vm_compute; reflexivity.
Defined.
